(** * ms-graph-toolkit: token inspection and the refresh-aware Graph client

    A shallow embedding of the Go packages [token] (ParseToken) and [graph]
    (Client, ClientWithRefresh, refreshToken), followed by the properties of
    the token life cycle.

    Conventions of the embedding:
    - a Go function returning [(T, error)] becomes a function into [error + T];
      a function returning only [error] returns [option error] or a [Result];
    - the network, the wall clock and the third-party decoders (golang-jwt,
      encoding/json, net/url) are the fields of an environment record, so that
      every theorem holds for all servers, clocks and decoders;
    - the receiver's mutable fields and the list of HTTP requests sent so far
      are threaded through a small state monad;
    - the mutexes are not represented: one operation runs at a time. *)

From Stdlib Require Import ZArith Lia Bool List QArith.
From Stdlib Require Import Floats.SpecFloat.
From stdpp Require Import base option gmap strings.

Local Open Scope string_scope.
Local Open Scope Z_scope.

#[local] Set Warnings "-register-all".

(* ===================================================================== *)
(** ** The Go runtime: int64 and float64                                  *)
(* ===================================================================== *)

Module Go.

Definition MinInt64 : Z := - 2 ^ 63.
Definition MaxInt64 : Z := 2 ^ 63 - 1.

Definition is_int64 (z : Z) : bool := (MinInt64 <=? z) && (z <=? MaxInt64).

(** The int64 that an int64 operation yields when its exact result is [z]:
    overflow wraps around. *)
Definition wrap64 (z : Z) : Z := (z - MinInt64) mod 2 ^ 64 + MinInt64.

(** A float64 is an IEEE 754 binary64 value. *)
Definition float64 : Type := spec_float.

Definition is_float64 (f : float64) : bool := valid_binary 53 1024 f.

(** The exact value of a finite float64 as a rational; zero for the
    non-finite ones, which have no value. *)
Definition float64_Q (f : float64) : Q :=
  match f with
  | S754_finite s m e =>
      let a := if 0 <=? e then inject_Z (Zpos m * 2 ^ e)
               else Qmake (Zpos m) (Z.to_pos (2 ^ (- e))) in
      if s then Qopp a else a
  | _ => 0%Q
  end.

(** The integer part of a float64: the fraction is discarded (truncation
    towards zero). Infinities and NaN have none. *)
Definition float64_trunc (f : float64) : option Z :=
  match f with
  | S754_zero _ => Some 0
  | S754_finite s m e =>
      let a := if 0 <=? e then Zpos m * 2 ^ e else Zpos m / 2 ^ (- e) in
      Some (if s then - a else a)
  | S754_infinity _ | S754_nan => None
  end.

(** The conversion [int64(v)] of a float64. When the integer part does not
    fit, Go leaves the result to the implementation; amd64 yields the
    smallest int64, which is what is written here. *)
Definition int64_of_float64 (f : float64) : Z :=
  match float64_trunc f with
  | Some z => if is_int64 z then z else MinInt64
  | None => MinInt64
  end.

(** A value of type [interface{}] as the JSON decoder produces it, plus
    [int64], which ParseToken's type switch names. *)
Inductive Value :=
| VNil
| VBool (b : bool)
| VFloat64 (f : float64)
| VInt64 (z : Z)
| VString (s : string)
| VArray (l : list Value)
| VObject (fields : list (string * Value)).

End Go.

(* ===================================================================== *)
(** ** Package time: [After] and [Sub] by their documented contract,       *)
(** ** [Unix] with the int64 arithmetic of its implementation             *)
(* ===================================================================== *)

Module time.

(** An instant, in nanoseconds since the Unix epoch. *)
Definition Time : Type := Z.

(** A Duration is an int64 count of nanoseconds. *)
Definition Duration : Type := Z.

Definition Nanosecond : Duration := 1.
Definition Second : Duration := 1000000000 * Nanosecond.
Definition Minute : Duration := 60 * Second.

Definition minDuration : Duration := Go.MinInt64.
Definition maxDuration : Duration := Go.MaxInt64.

(** The seconds from year 1, where a Time counts from, to the Unix epoch. *)
Definition unixToInternal : Z := 62135596800.

(** [Unix(sec, nsec)]: [nsec] is brought into [0, 1e9), carrying into
    [sec]; the Time keeps [sec + unixToInternal] in an int64, which wraps
    around when [sec] is within [unixToInternal] of the largest int64. The
    result is the instant that the Time then stands for. *)
Definition Unix (sec nsec : Z) : Time :=
  let '(sec, nsec) :=
    if (nsec <? 0) || (nsec >=? 1000000000) then
      let n := Z.quot nsec 1000000000 in
      let sec := Go.wrap64 (sec + n) in
      let nsec := nsec - n * 1000000000 in
      if nsec <? 0 then (Go.wrap64 (sec - 1), nsec + 1000000000)
      else (sec, nsec)
    else (sec, nsec) in
  (Go.wrap64 (sec + unixToInternal) - unixToInternal) * Second + nsec.

(** [t.After(u)]. *)
Definition After (t u : Time) : bool := u <? t.

(** [t.Sub(u)]: the duration t-u, replaced by the largest (smallest)
    Duration when it exceeds what a Duration can hold. *)
Definition Sub (t u : Time) : Duration :=
  let d := t - u in
  if maxDuration <? d then maxDuration
  else if d <? minDuration then minDuration
  else d.

End time.

(* ===================================================================== *)
(** ** github.com/golang-jwt/jwt/v5, as far as ParseToken sees it          *)
(* ===================================================================== *)

Module jwt.

(** The dynamic type of [token.Claims]: the [MapClaims] the caller handed
    to the parser, or some other implementation of the Claims interface. *)
Inductive Claims :=
| MapClaims (m : gmap string Go.Value)
| OtherClaims.

(** What [ParseUnverified] returns: an error (wrong number of segments,
    segment that is not base64url, payload that is not a JSON object, ...)
    or the token's claims. The library is a parameter of the development. *)
Definition Parser : Type := string -> string + Claims.

End jwt.

(* ===================================================================== *)
(** ** Errors                                                             *)
(* ===================================================================== *)

(** One constructor for each [fmt.Errorf] of the two packages; an argument
    named [cause] is the error wrapped with [%w]. *)
Inductive error :=
(* package token *)
| ErrJwt (msg : string)
| ErrParseToken (cause : error)
| ErrInvalidClaims
| ErrNoExpClaim
| ErrExpClaimType
(* checkAndRefreshToken *)
| ErrUnparsableNoRefresh (cause : error)
| ErrExpiredNoRefresh
| ErrRefreshFailed (cause : error)
| ErrTokenCheck (cause : error)
(* refreshTokenOn401 *)
| Err401NoRefresh
| Err401RefreshFailed (cause : error)
| ErrCreateRetryRequest
| ErrExecuteRetry
| ErrReadRetryBody
| ErrAPIAfterRefreshStatus (status : Z) (body : string)
| ErrAPIAfterRefresh (code message : string)
| ErrUnmarshalRetry
(* the verbs *)
| ErrEncodePayload
| ErrCreateRequest
| ErrExecuteRequest
| ErrReadBody
| ErrAPIStatus (status : Z) (body : string)
| ErrAPI (code message : string)
| ErrUnmarshal
(* refreshToken *)
| ErrRefreshTokenRequired
| ErrRefreshStatus (status : Z) (body : string)
| ErrRefreshAPI (code message : string)
| ErrParseTokenResponse
| ErrNoAccessToken.

(* ===================================================================== *)
(** ** Package token                                                      *)
(* ===================================================================== *)

Module token.

Record TokenInfo := {
  ExpiresAt : time.Time;
  IsExpired : bool;
  TimeUntilExp : time.Duration;
  ExpiresSoon : bool
}.

(** [ParseToken]. [parser] is [jwt.NewParser().ParseUnverified] and [now]
    is what [time.Now()] returns. *)
Definition ParseToken (parser : jwt.Parser) (now : time.Time)
    (tokenString : string) : error + TokenInfo :=
  match parser tokenString with
  | inl msg => inl (ErrParseToken (ErrJwt msg))
  | inr tokenClaims =>
      match tokenClaims with
      | jwt.OtherClaims => inl ErrInvalidClaims
      | jwt.MapClaims claims =>
          match claims !! "exp" with
          | None => inl ErrNoExpClaim
          | Some exp =>
              let finish (expTime : time.Time) : error + TokenInfo :=
                let timeUntilExp := time.Sub expTime now in
                let isExpired := time.After now expTime in
                let expiresSoon :=
                  negb isExpired && (timeUntilExp <? 10 * time.Minute) in
                inr {| ExpiresAt := expTime;
                       IsExpired := isExpired;
                       TimeUntilExp := timeUntilExp;
                       ExpiresSoon := expiresSoon |} in
              match exp with
              | Go.VFloat64 v => finish (time.Unix (Go.int64_of_float64 v) 0)
              | Go.VInt64 v => finish (time.Unix v 0)
              | _ => inl ErrExpClaimType
              end
          end
      end
  end.

(** [IsExpired]; the prime keeps it apart from the field of [TokenInfo]. *)
Definition IsExpired' (parser : jwt.Parser) (now : time.Time)
    (tokenString : string) : error + bool :=
  match ParseToken parser now tokenString with
  | inl err => inl err
  | inr info => inr (IsExpired info)
  end.

Definition IsExpiringSoon (parser : jwt.Parser) (now : time.Time)
    (tokenString : string) : error + bool :=
  match ParseToken parser now tokenString with
  | inl err => inl err
  | inr info => inr (ExpiresSoon info)
  end.

Definition GetExpirationTime (parser : jwt.Parser) (now : time.Time)
    (tokenString : string) : error + time.Time :=
  match ParseToken parser now tokenString with
  | inl err => inl err
  | inr info => inr (ExpiresAt info)
  end.

Definition GetTimeUntilExpiration (parser : jwt.Parser) (now : time.Time)
    (tokenString : string) : error + time.Duration :=
  match ParseToken parser now tokenString with
  | inl err => inl err
  | inr info => inr (TimeUntilExp info)
  end.

End token.

(* ===================================================================== *)
(** ** A state monad for the receiver and the network traffic             *)
(* ===================================================================== *)

Definition M (S A : Type) : Type := S -> A * S.

Definition ret {S A : Type} (a : A) : M S A := fun s => (a, s).

Definition bind {S A B : Type} (m : M S A) (k : A -> M S B) : M S B :=
  fun s => let (a, s') := m s in k a s'.

Declare Scope go_scope.
Delimit Scope go_scope with go.
Notation "x <- m ;; k" := (bind m (fun x => k))
  (at level 100, m at next level, right associativity) : go_scope.
Notation "m ;;; k" := (bind m (fun _ => k))
  (at level 100, right associativity) : go_scope.

(* ===================================================================== *)
(** ** Package graph                                                      *)
(* ===================================================================== *)

Module graph.

Definition BaseURL : string := "https://graph.microsoft.com/v1.0".

(** *** types.go *)

Record Error := { Code : string; Message : string }.

Record TokenResponse := {
  AccessToken : string;
  TokenType : string;
  ExpiresIn : Z;
  RefreshToken : string;
  Scope : string
}.

(** *** net/http, as far as the client uses it *)

(** The body handed to [http.NewRequest]: [nil], the bytes of a buffer, or
    the encoding of form values ([url.Values.Encode] lists the fields by
    key in increasing order). *)
Inductive Body :=
| NoBody
| Bytes (data : string)
| Form (fields : list (string * string)).

Record Request := {
  Method : string;
  URL : string;
  Authorization : option string;
  ContentType : option string;
  ReqBody : Body
}.

(** The outcome of [httpClient.Do] followed by [io.ReadAll(resp.Body)]:
    [Do] fails, or a response arrives with its status code and a body that
    can be read ([Some]) or whose reading fails ([None]). *)
Inductive RoundTrip :=
| DoError
| Response (StatusCode : Z) (body : option string).

(** A non-nil [result]: the destination a response is decoded into, named
    by its Go type. *)
Definition Target : Type := string.

(** What the operations return besides the state: [Ok (Some v)] when the
    response was decoded into [result] as [v], [Ok None] when the operation
    succeeded and decoded nothing, [Err e] for a non-nil error. *)
Inductive Result :=
| Ok (decoded : option Go.Value)
| Err (e : error).

(** The world outside the two packages. [http_Do sent req] is what the
    network answers to [req] after the requests [sent]; [time_Now sent] is
    the clock at that point. When the body of the answer to the last request
    of [sent] cannot be read, [io_ReadAll_partial sent] is what [io.ReadAll]
    had read of it before the error. *)
Record Env := {
  jwt_ParseUnverified : jwt.Parser;
  time_Now : list Request -> time.Time;
  url_Parse : string -> bool;
  http_Do : list Request -> Request -> RoundTrip;
  io_ReadAll_partial : list Request -> string;
  json_Encode : Go.Value -> option string;
  json_Unmarshal_ErrorResponse : string -> option Error;
  json_Unmarshal_TokenResponse : string -> option TokenResponse;
  json_Unmarshal_into : Target -> string -> option Go.Value
}.

(** *** The receivers *)

Module Client.
Record t := { accessToken : string; baseURL : string }.
End Client.

Module ClientWithRefresh.
Record t := {
  Client : Client.t;
  refreshToken : string;
  tenantID : string
}.
End ClientWithRefresh.

Definition NewClient (accessToken : string) : Client.t :=
  {| Client.accessToken := accessToken; Client.baseURL := BaseURL |}.

Definition NewClientWithRefresh (accessToken refreshToken tenantID : string)
    : ClientWithRefresh.t :=
  {| ClientWithRefresh.Client :=
       {| Client.accessToken := accessToken; Client.baseURL := BaseURL |};
     ClientWithRefresh.refreshToken := refreshToken;
     ClientWithRefresh.tenantID := tenantID |}.

(** The state a method of [*ClientWithRefresh] runs in. *)
Record State := {
  this : ClientWithRefresh.t;
  sent : list Request
}.

Definition set_accessToken (tok : string) : M State unit := fun st =>
  let c := this st in
  (tt, {| this :=
            {| ClientWithRefresh.Client :=
                 {| Client.accessToken := tok;
                    Client.baseURL := Client.baseURL (ClientWithRefresh.Client c) |};
               ClientWithRefresh.refreshToken := ClientWithRefresh.refreshToken c;
               ClientWithRefresh.tenantID := ClientWithRefresh.tenantID c |};
          sent := sent st |}).

Definition set_refreshToken (tok : string) : M State unit := fun st =>
  let c := this st in
  (tt, {| this :=
            {| ClientWithRefresh.Client := ClientWithRefresh.Client c;
               ClientWithRefresh.refreshToken := tok;
               ClientWithRefresh.tenantID := ClientWithRefresh.tenantID c |};
          sent := sent st |}).

Definition get_this : M State ClientWithRefresh.t := fun st => (this st, st).

(** Runs a computation that only uses the network in the method's state. *)
Definition on_network {A : Type} (m : M (list Request) A) : M State A :=
  fun st => let (a, sent') := m (sent st) in
            (a, {| this := this st; sent := sent' |}).

Definition non2xx (StatusCode : Z) : bool :=
  (StatusCode <? 200) || (StatusCode >=? 300).

Definition isEmpty (s : string) : bool := String.eqb s EmptyString.

(** [v != nil] for an interface value. *)
Definition notNil {A : Type} (v : option A) : bool :=
  match v with Some _ => true | None => false end.

(** [url.Parse] cuts the URL at its first number sign (byte 35), where the
    fragment starts: what precedes it. *)
Fixpoint beforeFragment (rawURL : string) : string :=
  match rawURL with
  | EmptyString => EmptyString
  | String c rest =>
      if Ascii.eqb c (Ascii.ascii_of_nat 35) then EmptyString
      else String c (beforeFragment rest)
  end.

(** net/url refuses a URL that holds an ASCII control character before its
    fragment. *)
Definition stringContainsCTLByte (s : string) : bool :=
  existsb (fun b => let n := Ascii.nat_of_ascii b in
                    Nat.ltb n 32 || Nat.eqb n 127)
          (String.list_ascii_of_string s).

Section WithEnv.

Variable E : Env.

Local Open Scope go_scope.

(** [http.NewRequest(method, url, body)]; the methods used are valid, so
    it fails exactly when the URL does not parse: when the part before the
    fragment holds a control character, or for another reason of
    [url.Parse]. *)
Definition http_NewRequest (method url : string) (body : Body)
    : option Request :=
  if stringContainsCTLByte (beforeFragment url) then None
  else if url_Parse E url then
    Some {| Method := method; URL := url; Authorization := None;
            ContentType := None; ReqBody := body |}
  else None.

Definition Header_Set_Authorization (req : Request) (v : string) : Request :=
  {| Method := Method req; URL := URL req; Authorization := Some v;
     ContentType := ContentType req; ReqBody := ReqBody req |}.

Definition Header_Set_ContentType (req : Request) (v : string) : Request :=
  {| Method := Method req; URL := URL req;
     Authorization := Authorization req;
     ContentType := Some v; ReqBody := ReqBody req |}.

(** [client.Do(req)] and the reading of the response body. *)
Definition Do (req : Request) : M (list Request) RoundTrip :=
  fun log => (http_Do E log req, (log ++ [req])%list).

Definition now : M State time.Time := fun st => (time_Now E (sent st), st).

(** [body, _ := io.ReadAll(resp.Body)]: the body, or what had been read of
    it when the reading failed. *)
Definition ReadAll_ignoring_error (body : option string)
    : M (list Request) string :=
  fun log =>
    (match body with
     | Some b => b
     | None => io_ReadAll_partial E log
     end, log).

(** [json.Unmarshal(data, v)] for a destination [v] of type
    [interface{}]: an error on empty input and on a nil destination. *)
Definition json_Unmarshal (data : string) (v : option Target)
    : option Go.Value :=
  match data with
  | EmptyString => None
  | String _ _ =>
      match v with
      | None => None
      | Some target => json_Unmarshal_into E target data
      end
  end.

(** The error built from a response outside 2xx: the structured error of
    the body when it decodes, the raw status and body otherwise. *)
Definition apiError (StatusCode : Z) (body : string) : error :=
  match json_Unmarshal_ErrorResponse E body with
  | None => ErrAPIStatus StatusCode body
  | Some errorResp => ErrAPI (Code errorResp) (Message errorResp)
  end.

(** [var body bytes.Buffer; json.NewEncoder(&body).Encode(payload)] for a
    non-nil payload. *)
Definition encodePayload (payload : option Go.Value) : option string :=
  match payload with
  | None => Some EmptyString
  | Some p => json_Encode E p
  end.

(** *** refresh.go *)

Definition refreshToken (refreshToken tenantID : string)
    : M (list Request) (error + TokenResponse) :=
  if isEmpty refreshToken then ret (inl ErrRefreshTokenRequired)
  else
    let tenantID := if isEmpty tenantID then "common" else tenantID in
    let endpoint :=
      "https://login.microsoftonline.com/" +:+ tenantID +:+ "/oauth2/v2.0/token" in
    let data := [("grant_type", "refresh_token");
                 ("refresh_token", refreshToken);
                 ("scope", "https://graph.microsoft.com/.default")] in
    match http_NewRequest "POST" endpoint (Form data) with
    | None => ret (inl ErrCreateRequest)
    | Some req =>
        let req := Header_Set_ContentType req "application/x-www-form-urlencoded" in
        resp <- Do req ;;
        match resp with
        | DoError => ret (inl ErrExecuteRequest)
        | Response _ None => ret (inl ErrReadBody)
        | Response StatusCode (Some body) =>
            if non2xx StatusCode then
              match json_Unmarshal_ErrorResponse E body with
              | None => ret (inl (ErrRefreshStatus StatusCode body))
              | Some errorResp =>
                  ret (inl (ErrRefreshAPI (Code errorResp) (Message errorResp)))
              end
            else
              match json_Unmarshal_TokenResponse E body with
              | None => ret (inl ErrParseTokenResponse)
              | Some tokenResp =>
                  if isEmpty (AccessToken tokenResp)
                  then ret (inl ErrNoAccessToken)
                  else ret (inr tokenResp)
              end
        end
    end.

(** *** client.go: the refresh-aware client's token handling *)

(** The assignments made after a successful refresh: the access token
    always, the refresh token when the response carries one. *)
Definition applyTokenResponse (tokenResp : TokenResponse) : M State unit :=
  set_accessToken (AccessToken tokenResp) ;;;
  if isEmpty (RefreshToken tokenResp) then ret tt
  else set_refreshToken (RefreshToken tokenResp).

Definition checkAndRefreshToken : M State (option error) :=
  c <- get_this ;;
  t <- now ;;
  let refreshIfConfigured (tokenInfo : option token.TokenInfo)
      : M State (option error) :=
    if isEmpty (ClientWithRefresh.refreshToken c) then
      match tokenInfo with
      | Some info =>
          if token.IsExpired info then ret (Some ErrExpiredNoRefresh)
          else ret None
      | None => ret None
      end
    else
      r <- on_network (refreshToken (ClientWithRefresh.refreshToken c)
                                    (ClientWithRefresh.tenantID c)) ;;
      match r with
      | inl err => ret (Some (ErrRefreshFailed err))
      | inr tokenResp => applyTokenResponse tokenResp ;;; ret None
      end in
  match token.ParseToken (jwt_ParseUnverified E) t
          (Client.accessToken (ClientWithRefresh.Client c)) with
  | inl err =>
      if isEmpty (ClientWithRefresh.refreshToken c)
      then ret (Some (ErrUnparsableNoRefresh err))
      else refreshIfConfigured None
  | inr tokenInfo =>
      if negb (token.IsExpired tokenInfo) && negb (token.ExpiresSoon tokenInfo)
      then ret None
      else refreshIfConfigured (Some tokenInfo)
  end.

(** The request a verb builds: method, base URL followed by the endpoint,
    bearer token and JSON content type. *)
Definition newAPIRequest (method baseURL endpoint : string) (body : Body)
    (accessToken : string) : option Request :=
  match http_NewRequest method (baseURL +:+ endpoint) body with
  | None => None
  | Some req =>
      Some (Header_Set_ContentType
              (Header_Set_Authorization req ("Bearer " +:+ accessToken))
              "application/json")
  end.

Definition refreshTokenOn401 (endpoint method : string) (body : Body)
    (result : option Target) : M State Result :=
  c <- get_this ;;
  if isEmpty (ClientWithRefresh.refreshToken c) then ret (Err Err401NoRefresh)
  else
    r <- on_network (refreshToken (ClientWithRefresh.refreshToken c)
                                  (ClientWithRefresh.tenantID c)) ;;
    match r with
    | inl err => ret (Err (Err401RefreshFailed err))
    | inr tokenResp =>
        applyTokenResponse tokenResp ;;;
        c <- get_this ;;
        match newAPIRequest method
                (Client.baseURL (ClientWithRefresh.Client c)) endpoint body
                (Client.accessToken (ClientWithRefresh.Client c)) with
        | None => ret (Err ErrCreateRetryRequest)
        | Some req =>
            resp <- on_network (Do req) ;;
            match resp with
            | DoError => ret (Err ErrExecuteRetry)
            | Response _ None => ret (Err ErrReadRetryBody)
            | Response StatusCode (Some respBody) =>
                if non2xx StatusCode then
                  match json_Unmarshal_ErrorResponse E respBody with
                  | None =>
                      ret (Err (ErrAPIAfterRefreshStatus StatusCode respBody))
                  | Some errorResp =>
                      ret (Err (ErrAPIAfterRefresh (Code errorResp)
                                                   (Message errorResp)))
                  end
                else if notNil result && Nat.ltb 0 (String.length respBody) then
                  match json_Unmarshal respBody result with
                  | None => ret (Err ErrUnmarshalRetry)
                  | Some v => ret (Ok (Some v))
                  end
                else ret (Ok None)
            end
        end
    end.

(** *** client.go: the verbs of [*Client] and of [*ClientWithRefresh] *)

Definition Client_Get (c : Client.t) (endpoint : string)
    (result : option Target) : M (list Request) Result :=
  let accessToken := Client.accessToken c in
  match newAPIRequest "GET" (Client.baseURL c) endpoint NoBody accessToken with
  | None => ret (Err ErrCreateRequest)
  | Some req =>
      resp <- Do req ;;
      match resp with
      | DoError => ret (Err ErrExecuteRequest)
      | Response _ None => ret (Err ErrReadBody)
      | Response StatusCode (Some body) =>
          if non2xx StatusCode then ret (Err (apiError StatusCode body))
          else
            match json_Unmarshal body result with
            | None => ret (Err ErrUnmarshal)
            | Some v => ret (Ok (Some v))
            end
      end
  end.

Definition ClientWithRefresh_Get (endpoint : string)
    (result : option Target) : M State Result :=
  check <- checkAndRefreshToken ;;
  match check with
  | Some err => ret (Err (ErrTokenCheck err))
  | None =>
      c <- get_this ;;
      let accessToken := Client.accessToken (ClientWithRefresh.Client c) in
      match newAPIRequest "GET"
              (Client.baseURL (ClientWithRefresh.Client c)) endpoint NoBody
              accessToken with
      | None => ret (Err ErrCreateRequest)
      | Some req =>
          resp <- on_network (Do req) ;;
          match resp with
          | DoError => ret (Err ErrExecuteRequest)
          | Response _ None => ret (Err ErrReadBody)
          | Response StatusCode (Some body) =>
              if StatusCode =? 401 then
                refreshTokenOn401 endpoint "GET" NoBody result
              else if non2xx StatusCode then ret (Err (apiError StatusCode body))
              else
                match json_Unmarshal body result with
                | None => ret (Err ErrUnmarshal)
                | Some v => ret (Ok (Some v))
                end
          end
      end
  end.

Definition Client_Post (c : Client.t) (endpoint : string) (payload : option Go.Value)
    (result : option Target) : M (list Request) Result :=
  let accessToken := Client.accessToken c in
  match encodePayload payload with
  | None => ret (Err ErrEncodePayload)
  | Some body =>
      match newAPIRequest "POST" (Client.baseURL c) endpoint (Bytes body) accessToken with
      | None => ret (Err ErrCreateRequest)
      | Some req =>
          resp <- Do req ;;
          match resp with
          | DoError => ret (Err ErrExecuteRequest)
          | Response _ None => ret (Err ErrReadBody)
          | Response StatusCode (Some respBody) =>
              if non2xx StatusCode then ret (Err (apiError StatusCode respBody))
              else if notNil result && Nat.ltb 0 (String.length respBody) then
                match json_Unmarshal respBody result with
                | None => ret (Err ErrUnmarshal)
                | Some v => ret (Ok (Some v))
                end
              else ret (Ok None)
          end
      end
  end.

Definition ClientWithRefresh_Post (endpoint : string) (payload : option Go.Value)
    (result : option Target) : M State Result :=
  check <- checkAndRefreshToken ;;
  match check with
  | Some err => ret (Err (ErrTokenCheck err))
  | None =>
      match encodePayload payload with
      | None => ret (Err ErrEncodePayload)
      | Some body =>
          c <- get_this ;;
          let accessToken := Client.accessToken (ClientWithRefresh.Client c) in
          match newAPIRequest "POST"
                  (Client.baseURL (ClientWithRefresh.Client c)) endpoint (Bytes body)
                  accessToken with
          | None => ret (Err ErrCreateRequest)
          | Some req =>
              resp <- on_network (Do req) ;;
              match resp with
              | DoError => ret (Err ErrExecuteRequest)
              | Response _ None => ret (Err ErrReadBody)
              | Response StatusCode (Some respBody) =>
                  if StatusCode =? 401 then
                    refreshTokenOn401 endpoint "POST"
                      (Bytes (default EmptyString (encodePayload payload))) result
                  else if non2xx StatusCode then ret (Err (apiError StatusCode respBody))
                  else if notNil result && Nat.ltb 0 (String.length respBody) then
                    match json_Unmarshal respBody result with
                    | None => ret (Err ErrUnmarshal)
                    | Some v => ret (Ok (Some v))
                    end
                  else ret (Ok None)
              end
          end
      end
  end.

Definition Client_Patch (c : Client.t) (endpoint : string) (payload : option Go.Value)
    (result : option Target) : M (list Request) Result :=
  let accessToken := Client.accessToken c in
  match encodePayload payload with
  | None => ret (Err ErrEncodePayload)
  | Some body =>
      match newAPIRequest "PATCH" (Client.baseURL c) endpoint (Bytes body) accessToken with
      | None => ret (Err ErrCreateRequest)
      | Some req =>
          resp <- Do req ;;
          match resp with
          | DoError => ret (Err ErrExecuteRequest)
          | Response _ None => ret (Err ErrReadBody)
          | Response StatusCode (Some respBody) =>
              if non2xx StatusCode then ret (Err (apiError StatusCode respBody))
              else if notNil result && Nat.ltb 0 (String.length respBody) then
                match json_Unmarshal respBody result with
                | None => ret (Err ErrUnmarshal)
                | Some v => ret (Ok (Some v))
                end
              else ret (Ok None)
          end
      end
  end.

Definition ClientWithRefresh_Patch (endpoint : string) (payload : option Go.Value)
    (result : option Target) : M State Result :=
  check <- checkAndRefreshToken ;;
  match check with
  | Some err => ret (Err (ErrTokenCheck err))
  | None =>
      match encodePayload payload with
      | None => ret (Err ErrEncodePayload)
      | Some body =>
          c <- get_this ;;
          let accessToken := Client.accessToken (ClientWithRefresh.Client c) in
          match newAPIRequest "PATCH"
                  (Client.baseURL (ClientWithRefresh.Client c)) endpoint (Bytes body)
                  accessToken with
          | None => ret (Err ErrCreateRequest)
          | Some req =>
              resp <- on_network (Do req) ;;
              match resp with
              | DoError => ret (Err ErrExecuteRequest)
              | Response _ None => ret (Err ErrReadBody)
              | Response StatusCode (Some respBody) =>
                  if StatusCode =? 401 then
                    refreshTokenOn401 endpoint "PATCH"
                      (Bytes (default EmptyString (encodePayload payload))) result
                  else if non2xx StatusCode then ret (Err (apiError StatusCode respBody))
                  else if notNil result && Nat.ltb 0 (String.length respBody) then
                    match json_Unmarshal respBody result with
                    | None => ret (Err ErrUnmarshal)
                    | Some v => ret (Ok (Some v))
                    end
                  else ret (Ok None)
              end
          end
      end
  end.

Definition Client_Delete (c : Client.t) (endpoint : string) : M (list Request) Result :=
  let accessToken := Client.accessToken c in
  match newAPIRequest "DELETE" (Client.baseURL c) endpoint NoBody accessToken with
  | None => ret (Err ErrCreateRequest)
  | Some req =>
      resp <- Do req ;;
      match resp with
      | DoError => ret (Err ErrExecuteRequest)
      | Response StatusCode body =>
          if non2xx StatusCode then
            body <- ReadAll_ignoring_error body ;;
            ret (Err (apiError StatusCode body))
          else ret (Ok None)
      end
  end.

Definition ClientWithRefresh_Delete (endpoint : string) : M State Result :=
  check <- checkAndRefreshToken ;;
  match check with
  | Some err => ret (Err (ErrTokenCheck err))
  | None =>
      c <- get_this ;;
      let accessToken := Client.accessToken (ClientWithRefresh.Client c) in
      match newAPIRequest "DELETE"
              (Client.baseURL (ClientWithRefresh.Client c)) endpoint NoBody
              accessToken with
      | None => ret (Err ErrCreateRequest)
      | Some req =>
          resp <- on_network (Do req) ;;
          match resp with
          | DoError => ret (Err ErrExecuteRequest)
          | Response StatusCode body =>
              if StatusCode =? 401 then
                refreshTokenOn401 endpoint "DELETE" NoBody None
              else if non2xx StatusCode then
                body <- on_network (ReadAll_ignoring_error body) ;;
                ret (Err (apiError StatusCode body))
              else ret (Ok None)
          end
      end
  end.

End WithEnv.

End graph.

(* ===================================================================== *)
(** ** Package profile                                                    *)
(* ===================================================================== *)

Module profile.

Import graph.

(** The errors of the package; [cause] is the error of [client.Get]. *)
Inductive Failure :=
| ErrGetMyProfile (cause : error)
| ErrUserIDEmpty
| ErrGetUserProfile (cause : error).

(** The destination [&user] of type [*graph.User]. *)
Definition User : Target := "User".

Section WithEnv.

Variable E : Env.

Local Open Scope go_scope.

(** The returned [*graph.User] is the [user] variable after the call of
    [Get]: what was decoded into it, [None] when nothing was. *)
Definition GetMyProfile (client : Client.t)
    : M (list Request) (Failure + option Go.Value) :=
  r <- Client_Get E client "/me" (Some User) ;;
  match r with
  | Err err => ret (inl (ErrGetMyProfile err))
  | Ok user => ret (inr user)
  end.

Definition GetUserProfile (client : Client.t) (userID : string)
    : M (list Request) (Failure + option Go.Value) :=
  if isEmpty userID then ret (inl ErrUserIDEmpty)
  else
    let endpoint := "/users/" +:+ userID in
    r <- Client_Get E client endpoint (Some User) ;;
    match r with
    | Err err => ret (inl (ErrGetUserProfile err))
    | Ok user => ret (inr user)
    end.

End WithEnv.

End profile.

(* ===================================================================== *)
(** ** The command-line program                                           *)
(* ===================================================================== *)

Module cmd.

Import graph.

Section WithEnv.

Variable E : Env.

Local Open Scope go_scope.

(** [main], as far as its exit status and its network traffic go: what it
    prints is not represented. [getenv] is [os.Getenv]; the result is the
    exit status, 0 when [main] returns. *)
Definition main (getenv : string -> string) : M (list Request) Z :=
  let accessToken := getenv "MS_GRAPH_ACCESS_TOKEN" in
  if isEmpty accessToken then ret 1
  else
    let refreshToken := getenv "MS_GRAPH_REFRESH_TOKEN" in
    let tenantID := getenv "MS_GRAPH_TENANT_ID" in
    let client :=
      if negb (isEmpty refreshToken)
      then ClientWithRefresh.Client
             (NewClientWithRefresh accessToken refreshToken tenantID)
      else NewClient accessToken in
    r <- profile.GetMyProfile E client ;;
    match r with
    | inl _ => ret 1
    | inr _ => ret 0
    end.

End WithEnv.

End cmd.

(* ===================================================================== *)
(** ** Vocabulary of the specification                                    *)
(* ===================================================================== *)

Module spec.

(** A numeric claim value. *)
Definition numeric (v : Go.Value) : bool :=
  match v with
  | Go.VFloat64 _ | Go.VInt64 _ => true
  | _ => false
  end.

(** The errors the specification calls decode errors: the token is not a
    well-formed JWT, or its claims do not have the expected structure. *)
Inductive DecodeError : error -> Prop :=
| DecodeError_parse cause : DecodeError (ErrParseToken cause)
| DecodeError_claims : DecodeError ErrInvalidClaims.

(** The "exp" claim in whole seconds: the claim itself when it is an
    integer, its integer part (towards zero) when it is a float64 whose
    integer part is an int64. *)
Definition wholeSeconds (v : Go.Value) : option Z :=
  match v with
  | Go.VInt64 z => Some z
  | Go.VFloat64 f =>
      match Go.float64_trunc f with
      | Some z => if Go.is_int64 z then Some z else None
      | None => None
      end
  | _ => None
  end.

Import graph.

(** A call of one of the four verbs. *)
Inductive Op :=
| OpGet (endpoint : string) (result : option Target)
| OpPost (endpoint : string) (payload : option Go.Value) (result : option Target)
| OpPatch (endpoint : string) (payload : option Go.Value) (result : option Target)
| OpDelete (endpoint : string).

(** The call on the refresh-aware client. *)
Definition call (E : Env) (op : Op) : M State Result :=
  match op with
  | OpGet endpoint result => ClientWithRefresh_Get E endpoint result
  | OpPost endpoint payload result => ClientWithRefresh_Post E endpoint payload result
  | OpPatch endpoint payload result => ClientWithRefresh_Patch E endpoint payload result
  | OpDelete endpoint => ClientWithRefresh_Delete E endpoint
  end.

(** The call on the plain client. *)
Definition callPlain (E : Env) (c : Client.t) (op : Op)
    : M (list Request) Result :=
  match op with
  | OpGet endpoint result => Client_Get E c endpoint result
  | OpPost endpoint payload result => Client_Post E c endpoint payload result
  | OpPatch endpoint payload result => Client_Patch E c endpoint payload result
  | OpDelete endpoint => Client_Delete E c endpoint
  end.

Definition method (op : Op) : string :=
  match op with
  | OpGet _ _ => "GET"
  | OpPost _ _ _ => "POST"
  | OpPatch _ _ _ => "PATCH"
  | OpDelete _ => "DELETE"
  end.

Definition endpoint (op : Op) : string :=
  match op with
  | OpGet e _ | OpPost e _ _ | OpPatch e _ _ | OpDelete e => e
  end.

Definition isDelete (op : Op) : bool :=
  match op with OpDelete _ => true | _ => false end.

(** The body of the request of a call, when its payload encodes. *)
Definition requestBody (E : Env) (op : Op) : option Body :=
  match op with
  | OpGet _ _ | OpDelete _ => Some NoBody
  | OpPost _ payload _ | OpPatch _ payload _ =>
      match payload with
      | None => Some (Bytes EmptyString)
      | Some p => Bytes <$> json_Encode E p
      end
  end.

(** The request of a call issued by a client whose base URL and access
    token are given, when it can be built. *)
Definition primaryRequest (E : Env) (c : Client.t) (op : Op) : option Request :=
  match requestBody E op with
  | None => None
  | Some body =>
      if stringContainsCTLByte
           (beforeFragment (Client.baseURL c +:+ endpoint op)) then None
      else if url_Parse E (Client.baseURL c +:+ endpoint op) then
        Some {| Method := method op;
                URL := Client.baseURL c +:+ endpoint op;
                Authorization := Some ("Bearer " +:+ Client.accessToken c);
                ContentType := Some "application/json";
                ReqBody := body |}
      else None
  end.

(** The same request under another access token. *)
Definition withBearer (req : Request) (accessToken : string) : Request :=
  {| Method := Method req; URL := URL req;
     Authorization := Some ("Bearer " +:+ accessToken);
     ContentType := ContentType req; ReqBody := ReqBody req |}.

(** The address of the token endpoint of a tenant. *)
Definition tokenURL (tenantID : string) : string :=
  "https://login.microsoftonline.com/"
    +:+ (if isEmpty tenantID then "common" else tenantID)
    +:+ "/oauth2/v2.0/token".

(** The request of a token refresh. *)
Definition refreshRequest (refreshToken tenantID : string) : Request :=
  {| Method := "POST";
     URL := tokenURL tenantID;
     Authorization := None;
     ContentType := Some "application/x-www-form-urlencoded";
     ReqBody := Form [("grant_type", "refresh_token");
                      ("refresh_token", refreshToken);
                      ("scope", "https://graph.microsoft.com/.default")] |}.

(** A request for this URL can be built. *)
Definition requestable (E : Env) (url : string) : bool :=
  negb (stringContainsCTLByte (beforeFragment url)) && url_Parse E url.

(** The pre-flight check does not find the access token fresh: it does not
    parse, is expired, or expires soon. *)
Definition needsRefresh (E : Env) (st : State) : bool :=
  match token.ParseToken (jwt_ParseUnverified E) (time_Now E (sent st))
          (Client.accessToken (ClientWithRefresh.Client (this st))) with
  | inl _ => true
  | inr info => token.IsExpired info || token.ExpiresSoon info
  end.

(** The receiver after a successful refresh answered with [tokenResp]: the
    access token is the response's; the refresh token is the response's
    when it carries one and the previous one otherwise. *)
Definition afterRefresh (c : ClientWithRefresh.t) (tokenResp : TokenResponse)
    : ClientWithRefresh.t :=
  {| ClientWithRefresh.Client :=
       {| Client.accessToken := AccessToken tokenResp;
          Client.baseURL := Client.baseURL (ClientWithRefresh.Client c) |};
     ClientWithRefresh.refreshToken :=
       if isEmpty (RefreshToken tokenResp)
       then ClientWithRefresh.refreshToken c
       else RefreshToken tokenResp;
     ClientWithRefresh.tenantID := ClientWithRefresh.tenantID c |}.

(** A token response that the credential refresher has returned. *)
Definition issued (E : Env) (tokenResp : TokenResponse) : Prop :=
  exists refreshToken_ tenantID log log',
    refreshToken E refreshToken_ tenantID log = (inr tokenResp, log').

(** The [result] argument of a call. *)
Definition resultOf (op : Op) : option Target :=
  match op with
  | OpGet _ r | OpPost _ _ r | OpPatch _ _ r => r
  | OpDelete _ => None
  end.

(** The first attempt of a call was answered with status 401 (and, for the
    verbs that read the body before looking at the status, the body could
    be read). *)
Definition answered401 (op : Op) (r : RoundTrip) : bool :=
  match r with
  | DoError => false
  | Response StatusCode body =>
      (StatusCode =? 401) && (isDelete op || notNil body)
  end.

End spec.

(* ===================================================================== *)
(** ** Concrete scenarios                                                 *)
(* ===================================================================== *)

Module scenario.

(** 1000.5 as a binary64: the mantissa is 2001 * 2^42, the exponent -43. *)
Definition f1000_5 : Go.float64 := S754_finite false 8800491068719104 (-43).

(** 2000 as a binary64: the mantissa is 2000 * 2^42, the exponent -42. *)
Definition f2000 : Go.float64 := S754_finite false 8796093022208000 (-42).

(** A JWT library that knows five tokens. *)
Definition parser : jwt.Parser := fun tok =>
  if String.eqb tok "h.frac.s" then
    inr (jwt.MapClaims {[ "exp" := Go.VFloat64 f1000_5 ]})
  else if String.eqb tok "h.t2000.s" then
    inr (jwt.MapClaims {[ "exp" := Go.VFloat64 f2000 ]})
  else if String.eqb tok "h.new.s" then
    inr (jwt.MapClaims {[ "exp" := Go.VInt64 9000 ]})
  else if String.eqb tok "h.noexp.s" then
    inr (jwt.MapClaims {[ "sub" := Go.VString "alice" ]})
  else if String.eqb tok "h.strexp.s" then
    inr (jwt.MapClaims {[ "exp" := Go.VString "tomorrow" ]})
  else inl "token contains an invalid number of segments".

Import graph.

Definition newline : string := String (Ascii.ascii_of_nat 10) EmptyString.

(** A Graph API that answers every call with 401 and a token endpoint that
    is down; [clock] is the constant reading of the wall clock. *)
Definition env_down (clock : time.Time) : Env :=
  {| jwt_ParseUnverified := parser;
     time_Now := fun _ => clock;
     url_Parse := fun _ => true;
     http_Do := fun _ req =>
       if notNil (Authorization req)
       then Response 401 (Some "{}")
       else Response 503 (Some "down");
     io_ReadAll_partial := fun _ => EmptyString;
   json_Encode := fun _ => Some "{}";
     json_Unmarshal_ErrorResponse := fun _ => None;
     json_Unmarshal_TokenResponse := fun _ => None;
     json_Unmarshal_into := fun _ _ => Some (Go.VObject []) |}.

(** A Graph API that answers 204 with an empty body to every call, and a
    token endpoint that issues the access token "h.new.s" and rotates
    the refresh token to "rt2". *)
Definition env_up (clock : time.Time) : Env :=
  {| jwt_ParseUnverified := parser;
     time_Now := fun _ => clock;
     url_Parse := fun _ => true;
     http_Do := fun _ req =>
       if notNil (Authorization req) then Response 204 (Some EmptyString)
       else Response 200 (Some "token");
     io_ReadAll_partial := fun _ => EmptyString;
   json_Encode := fun _ => Some "{}";
     json_Unmarshal_ErrorResponse := fun _ => None;
     json_Unmarshal_TokenResponse := fun body =>
       if String.eqb body "token" then
         Some {| AccessToken := "h.new.s"; TokenType := "Bearer";
                 ExpiresIn := 3600; RefreshToken := "rt2";
                 Scope := "https://graph.microsoft.com/.default" |}
       else None;
     json_Unmarshal_into := fun _ _ => Some (Go.VObject []) |}.

(** A Graph API that answers the first call with 401 and later ones with
    200, with the token endpoint of [env_up]. *)
Definition env_401_once (clock : time.Time) : Env :=
  {| jwt_ParseUnverified := parser;
     time_Now := fun _ => clock;
     url_Parse := fun _ => true;
     http_Do := fun log req =>
       if notNil (Authorization req) then
         match log with
         | [] => Response 401 (Some "{}")
         | _ :: _ => Response 200 (Some "{}")
         end
       else Response 200 (Some "token");
     io_ReadAll_partial := fun _ => EmptyString;
   json_Encode := fun _ => Some "{}";
     json_Unmarshal_ErrorResponse := fun _ => None;
     json_Unmarshal_TokenResponse := json_Unmarshal_TokenResponse (env_up clock);
     json_Unmarshal_into := fun _ _ => Some (Go.VObject []) |}.

(** Three readings of the clock: 1000 s, 1700 s and 3000 s after the
    epoch. A token that expires at 2000 s is fresh at the first, expiring
    soon at the second and expired at the third. *)
Definition early : time.Time := 1000 * time.Second.
Definition soon : time.Time := 1700 * time.Second.
Definition late : time.Time := 3000 * time.Second.

(** The request [GET /me] under an access token. *)
Definition getMe (accessToken : string) : Request :=
  {| Method := "GET";
     URL := "https://graph.microsoft.com/v1.0/me";
     Authorization := Some ("Bearer " +:+ accessToken);
     ContentType := Some "application/json";
     ReqBody := NoBody |}.

Definition start (accessToken refreshToken tenantID : string) : State :=
  {| this := NewClientWithRefresh accessToken refreshToken tenantID;
     sent := [] |}.

(** A Graph API that answers every call with 401 and a body that cannot
    be read, after three bytes, with the token endpoint of [env_up]. *)
Definition env_401_unreadable (clock : time.Time) : Env :=
  {| jwt_ParseUnverified := parser;
     time_Now := fun _ => clock;
     url_Parse := fun _ => true;
     http_Do := fun _ req =>
       if notNil (Authorization req) then Response 401 None
       else Response 200 (Some "token");
     io_ReadAll_partial := fun _ => "Una";
     json_Encode := fun _ => Some "{}";
     json_Unmarshal_ErrorResponse := fun _ => None;
     json_Unmarshal_TokenResponse := json_Unmarshal_TokenResponse (env_up clock);
     json_Unmarshal_into := fun _ _ => Some (Go.VObject []) |}.

(** A JWT library for which every token carries the integer claim
    "exp" = 2^63 - 1024, an int64 in the far future. *)
Definition parser_far : jwt.Parser := fun _ =>
  inr (jwt.MapClaims {[ "exp" := Go.VInt64 (2 ^ 63 - 1024) ]}).

(** A JWT library for which every token carries the integer claim
    "exp" = 2000. *)
Definition parser_int : jwt.Parser := fun _ =>
  inr (jwt.MapClaims {[ "exp" := Go.VInt64 2000 ]}).

(** The request [DELETE /me] under an access token. *)
Definition deleteMe (accessToken : string) : Request :=
  {| Method := "DELETE";
     URL := "https://graph.microsoft.com/v1.0/me";
     Authorization := Some ("Bearer " +:+ accessToken);
     ContentType := Some "application/json";
     ReqBody := NoBody |}.

End scenario.

(* ===================================================================== *)
(** ** Properties of the token inspector                                  *)
(* ===================================================================== *)

Section TokenInspector.

Import token.

Lemma Sub_sign (t u : time.Time) :
  (time.Sub t u < 0 <-> t < u) /\
  (forall d, 0 <= d <= time.maxDuration -> time.Sub t u < d <-> t - u < d).
Proof.
  unfold time.Sub, time.maxDuration, time.minDuration, Go.MaxInt64, Go.MinInt64.
  destruct (Z.ltb_spec (2 ^ 63 - 1) (t - u));
    [|destruct (Z.ltb_spec (t - u) (- 2 ^ 63))]; split; try intros d Hd; lia.
Qed.

Lemma wrap64_id (z : Z) :
  Go.MinInt64 <= z <= Go.MaxInt64 -> Go.wrap64 z = z.
Proof.
  unfold Go.wrap64, Go.MinInt64, Go.MaxInt64. intros Hz.
  rewrite Z.mod_small; lia.
Qed.

(** Within the range of a Time, [Unix] is exact. *)
Lemma Unix_exact (sec : Z) :
  Go.MinInt64 <= sec <= Go.MaxInt64 - time.unixToInternal ->
  time.Unix sec 0 = sec * 1000000000.
Proof.
  intros Hsec. unfold time.Unix. cbn [Z.ltb Z.geb Z.compare orb].
  rewrite wrap64_id.
  - unfold time.Second, time.Nanosecond. lia.
  - unfold time.unixToInternal, Go.MinInt64, Go.MaxInt64 in *. lia.
Qed.

Lemma ParseToken_numeric parser now tok claims exp sec :
  parser tok = inr (jwt.MapClaims claims) ->
  claims !! "exp" = Some exp ->
  spec.wholeSeconds exp = Some sec ->
  ParseToken parser now tok =
    inr {| ExpiresAt := time.Unix sec 0;
           IsExpired := time.After now (time.Unix sec 0);
           TimeUntilExp := time.Sub (time.Unix sec 0) now;
           ExpiresSoon := negb (time.After now (time.Unix sec 0))
                          && (time.Sub (time.Unix sec 0) now <? 10 * time.Minute) |}.
Proof.
  intros Hp Hexp Hsec. unfold ParseToken. rewrite Hp, Hexp.
  destruct exp; simpl in Hsec; try discriminate.
  - unfold Go.int64_of_float64.
    destruct (Go.float64_trunc f) as [z|]; [|discriminate].
    destruct (Go.is_int64 z); [|discriminate].
    injection Hsec as ->. reflexivity.
  - injection Hsec as ->. reflexivity.
Qed.

(** C4 (amended). For every well-formed token whose "exp" claim, taken in
    whole seconds (a fractional claim is truncated towards zero, and its
    integer part fits an int64), is an instant that a Time can hold (the
    claim plus 62135596800 is an int64) and lies X >= 0 after the current
    time, inspection reports is_expired = false, and expires_soon = true
    iff X < 600 seconds; when that whole-second expiry lies before the
    current time, inspection reports is_expired = true, expires_soon = false
    and a negative time_until_expiry. *)
Theorem ParseToken_expiry_state parser now tok claims exp sec :
  parser tok = inr (jwt.MapClaims claims) ->
  claims !! "exp" = Some exp ->
  spec.wholeSeconds exp = Some sec ->
  Go.MinInt64 <= sec <= Go.MaxInt64 - 62135596800 ->
  exists info,
    ParseToken parser now tok = inr info /\
    ExpiresAt info = sec * 1000000000 /\
    (now <= sec * 1000000000 ->
       IsExpired info = false /\
       (ExpiresSoon info = true <->
          sec * 1000000000 - now < 600 * 1000000000)) /\
    (sec * 1000000000 < now ->
       IsExpired info = true /\ ExpiresSoon info = false /\
       TimeUntilExp info < 0).
Proof.
  intros Hp Hexp Hsec Hrange0.
  eexists. split; [exact (ParseToken_numeric _ now _ _ _ _ Hp Hexp Hsec)|].
  cbn [ExpiresAt IsExpired TimeUntilExp ExpiresSoon].
  assert (HU : time.Unix sec 0 = sec * 1000000000)
    by (apply Unix_exact; exact Hrange0).
  rewrite HU. clear HU.
  destruct (Sub_sign (sec * 1000000000) now) as [Hneg Hlt].
  specialize (Hlt (10 * time.Minute)).
  assert (Hten : 10 * time.Minute = 600 * 1000000000) by reflexivity.
  rewrite Hten in Hlt |- *.
  assert (Hrange : 0 <= 600 * 1000000000 <= time.maxDuration)
    by (unfold time.maxDuration, Go.MaxInt64; lia).
  specialize (Hlt Hrange).
  unfold time.After.
  split; [reflexivity|]. split.
  - intros Hle. destruct (Z.ltb_spec (sec * 1000000000) now); [lia|].
    split; [reflexivity|]. simpl.
    rewrite Z.ltb_lt. exact Hlt.
  - intros Hpast. destruct (Z.ltb_spec (sec * 1000000000) now); [|lia].
    split; [reflexivity|]. split; [reflexivity|]. apply Hneg. exact Hpast.
Qed.

(** C8. Token inspection fails with a decode error on every string the
    JWT library does not accept as a token with map claims, with the
    missing-claim error when the claims lack "exp", with the
    invalid-claim-type error when "exp" is present and not numeric, and
    succeeds otherwise. *)
Theorem ParseToken_error_classes parser now tok :
  ((forall claims, parser tok <> inr (jwt.MapClaims claims)) ->
     exists e, ParseToken parser now tok = inl e /\ spec.DecodeError e) /\
  (forall claims, parser tok = inr (jwt.MapClaims claims) ->
     match claims !! "exp" with
     | None => ParseToken parser now tok = inl ErrNoExpClaim
     | Some v =>
         if spec.numeric v
         then exists info, ParseToken parser now tok = inr info
         else ParseToken parser now tok = inl ErrExpClaimType
     end).
Proof.
  split.
  - intros Hbad. unfold ParseToken.
    destruct (parser tok) as [msg|[claims|]].
    + eexists; split; [reflexivity|constructor].
    + exfalso. exact (Hbad claims eq_refl).
    + eexists; split; [reflexivity|constructor].
  - intros claims Hp. unfold ParseToken. rewrite Hp.
    destruct (claims !! "exp") as [v|]; [|reflexivity].
    destruct v; simpl; try reflexivity; eexists; reflexivity.
Qed.

End TokenInspector.
(* ===================================================================== *)
(** ** Properties of the credential refresher                             *)
(* ===================================================================== *)

Ltac unfold_monad :=
  unfold bind, ret, graph.get_this, graph.now, graph.on_network, graph.Do,
    graph.set_accessToken, graph.set_refreshToken,
    graph.Header_Set_ContentType, graph.Header_Set_Authorization in *.

Section CredentialRefresher.

Import graph spec.

Variable E : Env.

Lemma length_positive (s : string) :
  Nat.ltb 0 (String.length s) = negb (isEmpty s).
Proof. destruct s; reflexivity. Qed.

Lemma http_NewRequest_requestable (m url : string) (body : Body) :
  http_NewRequest E m url body =
    if requestable E url
    then Some {| Method := m; URL := url; Authorization := None;
                 ContentType := None; ReqBody := body |}
    else None.
Proof.
  unfold http_NewRequest, requestable.
  destruct (stringContainsCTLByte _); [reflexivity|].
  destruct (url_Parse E url); reflexivity.
Qed.

Lemma tokenURL_eq (tenantID : string) :
  "https://login.microsoftonline.com/"
    +:+ (if isEmpty tenantID then "common" else tenantID)
    +:+ "/oauth2/v2.0/token" = tokenURL tenantID.
Proof. reflexivity. Qed.

(** The traffic of a refresh: nothing, or the one refresh request. *)
Lemma refreshToken_traffic (rt tenantID : string) (log : list Request) :
  snd (refreshToken E rt tenantID log) =
    if isEmpty rt then log
    else if requestable E (tokenURL tenantID)
         then (log ++ [refreshRequest rt tenantID])%list
         else log.
Proof.
  unfold refreshToken. destruct (isEmpty rt); [reflexivity|].
  rewrite tokenURL_eq, http_NewRequest_requestable.
  destruct (requestable E (tokenURL tenantID)); [|reflexivity].
  unfold_monad. cbn.
  fold (refreshRequest rt tenantID).
  destruct (http_Do E log (refreshRequest rt tenantID)) as [|status [body|]];
    try reflexivity.
  destruct (non2xx status).
  - destruct (json_Unmarshal_ErrorResponse E body); reflexivity.
  - destruct (json_Unmarshal_TokenResponse E body) as [tr|]; [|reflexivity].
    destruct (isEmpty (AccessToken tr)); reflexivity.
Qed.

Lemma refreshToken_ok_inv (rt tenantID : string) (log log' : list Request)
    (tr : TokenResponse) :
  refreshToken E rt tenantID log = (inr tr, log') ->
  isEmpty rt = false /\
  log' = (log ++ [refreshRequest rt tenantID])%list /\
  isEmpty (AccessToken tr) = false.
Proof.
  intros H. pose proof (refreshToken_traffic rt tenantID log) as Ht.
  rewrite H in Ht. simpl in Ht.
  unfold refreshToken in H. destruct (isEmpty rt); [discriminate|].
  rewrite tokenURL_eq, http_NewRequest_requestable in H.
  destruct (requestable E (tokenURL tenantID)); [|discriminate].
  split; [reflexivity|]. split; [exact Ht|].
  unfold_monad. cbn in H.
  destruct (http_Do E log _) as [|status [body|]]; try discriminate.
  destruct (non2xx status).
  - destruct (json_Unmarshal_ErrorResponse E body); discriminate.
  - destruct (json_Unmarshal_TokenResponse E body) as [tr'|]; [|discriminate].
    destruct (isEmpty (AccessToken tr')) eqn:Hat; [discriminate|].
    injection H as <- _. exact Hat.
Qed.

(** C7 (amended). The credential refresher fails with an input error and
    sends nothing when the refresh token is empty. Otherwise its request is
    a form-encoded POST to the token endpoint of the tenant ("common" for
    an empty tenant identifier) carrying grant_type=refresh_token, the
    refresh token and the default scope; when a request for that address
    can be built it is sent, once, and nothing else is; when it cannot, the
    refresher fails without a network call. A 2xx answer whose body does not
    decode or decodes to an empty access_token is an error. *)
Theorem refreshToken_contract (rt tenantID : string) (log : list Request) :
  (isEmpty rt = true ->
     refreshToken E rt tenantID log = (inl ErrRefreshTokenRequired, log)) /\
  (isEmpty rt = false ->
     let req := refreshRequest rt tenantID in
     Method req = "POST" /\
     URL req = "https://login.microsoftonline.com/"
                 +:+ (if isEmpty tenantID then "common" else tenantID)
                 +:+ "/oauth2/v2.0/token" /\
     ContentType req = Some "application/x-www-form-urlencoded" /\
     ReqBody req = Form [("grant_type", "refresh_token");
                         ("refresh_token", rt);
                         ("scope", "https://graph.microsoft.com/.default")] /\
     (requestable E (URL req) = false ->
        refreshToken E rt tenantID log = (inl ErrCreateRequest, log)) /\
     (requestable E (URL req) = true ->
        exists r,
          refreshToken E rt tenantID log = (r, (log ++ [req])%list) /\
          forall status body,
            http_Do E log req = Response status (Some body) ->
            non2xx status = false ->
            match json_Unmarshal_TokenResponse E body with
            | None => r = inl ErrParseTokenResponse
            | Some tr =>
                if isEmpty (AccessToken tr) then r = inl ErrNoAccessToken
                else r = inr tr
            end)).
Proof.
  split.
  - intros Hrt. unfold refreshToken. rewrite Hrt. reflexivity.
  - intros Hrt req. repeat (split; [reflexivity|]).
    subst req. cbn [URL refreshRequest]. split; intros Hreq.
    + unfold refreshToken.
      rewrite Hrt, tokenURL_eq, http_NewRequest_requestable, Hreq. reflexivity.
    + exists (fst (refreshToken E rt tenantID log)). split.
      * rewrite (surjective_pairing (refreshToken E rt tenantID log)) at 1.
        rewrite refreshToken_traffic, Hrt, Hreq. reflexivity.
      * intros status body Hdo H2xx. unfold refreshToken.
        rewrite Hrt, tokenURL_eq, http_NewRequest_requestable, Hreq.
        unfold_monad. cbn. fold (refreshRequest rt tenantID).
        rewrite Hdo, H2xx.
        destruct (json_Unmarshal_TokenResponse E body) as [tr|]; [|reflexivity].
        destruct (isEmpty (AccessToken tr)); reflexivity.
Qed.

End CredentialRefresher.

(* ===================================================================== *)
(** ** Properties of the refresh-aware client                             *)
(* ===================================================================== *)

Section RefreshAwareClient.

Import graph spec.

Variable E : Env.

Lemma newAPIRequest_requestable (m base ep : string) (body : Body) (tok : string) :
  newAPIRequest E m base ep body tok =
    if requestable E (base +:+ ep)
    then Some {| Method := m; URL := base +:+ ep;
                 Authorization := Some ("Bearer " +:+ tok);
                 ContentType := Some "application/json";
                 ReqBody := body |}
    else None.
Proof.
  unfold newAPIRequest. rewrite http_NewRequest_requestable.
  destruct (requestable E (base +:+ ep)); reflexivity.
Qed.

Lemma applyTokenResponse_eq (tr : TokenResponse) (st : State) :
  applyTokenResponse tr st =
    (tt, {| this := afterRefresh (this st) tr; sent := sent st |}).
Proof.
  unfold applyTokenResponse, afterRefresh. unfold_monad. cbn.
  destruct (isEmpty (RefreshToken tr)); reflexivity.
Qed.

(** The refresh step shared by the pre-flight check and the reaction to a
    401, with the error wrapped by [wrap]. *)
Lemma refresh_step {A : Type} (wrap : error -> A) (k : M State A)
    (c : ClientWithRefresh.t) (log : list Request) :
  (r <- on_network (refreshToken E (ClientWithRefresh.refreshToken c)
                                   (ClientWithRefresh.tenantID c)) ;;
   match r with
   | inl err => ret (wrap err)
   | inr tokenResp => applyTokenResponse tokenResp ;;; k
   end)%go {| this := c; sent := log |} =
  match refreshToken E (ClientWithRefresh.refreshToken c)
          (ClientWithRefresh.tenantID c) log with
  | (inl err, log') => (wrap err, {| this := c; sent := log' |})
  | (inr tr, log') => k {| this := afterRefresh c tr; sent := log' |}
  end.
Proof.
  unfold bind at 1. unfold on_network. cbn [sent this].
  destruct (refreshToken E _ _ log) as [[err|tr] log']; [reflexivity|].
  unfold bind. rewrite applyTokenResponse_eq. reflexivity.
Qed.

(** The pre-flight check, case by case. *)
Lemma checkAndRefreshToken_eq (c : ClientWithRefresh.t) (log : list Request) :
  checkAndRefreshToken E {| this := c; sent := log |} =
    let st := {| this := c; sent := log |} in
    let refresh :=
      match refreshToken E (ClientWithRefresh.refreshToken c)
              (ClientWithRefresh.tenantID c) log with
      | (inl err, log') =>
          (Some (ErrRefreshFailed err), {| this := c; sent := log' |})
      | (inr tr, log') => (None, {| this := afterRefresh c tr; sent := log' |})
      end in
    match token.ParseToken (jwt_ParseUnverified E) (time_Now E log)
            (Client.accessToken (ClientWithRefresh.Client c)) with
    | inl err =>
        if isEmpty (ClientWithRefresh.refreshToken c)
        then (Some (ErrUnparsableNoRefresh err), st)
        else refresh
    | inr info =>
        if negb (token.IsExpired info) && negb (token.ExpiresSoon info)
        then (None, st)
        else if isEmpty (ClientWithRefresh.refreshToken c)
        then (if token.IsExpired info then Some ErrExpiredNoRefresh else None, st)
        else refresh
    end.
Proof.
  unfold checkAndRefreshToken.
  unfold bind at 1. unfold get_this at 1. cbn [this].
  unfold bind at 1. unfold now at 1. cbn [sent].
  cbv zeta.
  destruct (token.ParseToken _ _ _) as [err|info].
  - destruct (isEmpty (ClientWithRefresh.refreshToken c)) eqn:Hrt; [reflexivity|].
    rewrite (refresh_step (fun e => Some (ErrRefreshFailed e)) (ret None)).
    destruct (refreshToken E _ _ log) as [[e|tr] log']; reflexivity.
  - destruct (negb (token.IsExpired info) && negb (token.ExpiresSoon info));
      [reflexivity|].
    destruct (isEmpty (ClientWithRefresh.refreshToken c)) eqn:Hrt.
    + destruct (token.IsExpired info); reflexivity.
    + rewrite (refresh_step (fun e => Some (ErrRefreshFailed e)) (ret None)).
      destruct (refreshToken E _ _ log) as [[e|tr] log']; reflexivity.
Qed.

(** The traffic of the pre-flight check: nothing, or one refresh request
    carrying the receiver's refresh token. *)
Lemma checkAndRefreshToken_traffic (st : State) :
  let log' := sent (snd (checkAndRefreshToken E st)) in
  log' = sent st \/
  log' = (sent st ++ [refreshRequest (ClientWithRefresh.refreshToken (this st))
                                      (ClientWithRefresh.tenantID (this st))])%list.
Proof.
  destruct st as [c log]. cbn [sent this]. rewrite checkAndRefreshToken_eq.
  cbv zeta.
  pose proof (refreshToken_traffic E (ClientWithRefresh.refreshToken c)
                (ClientWithRefresh.tenantID c) log) as Ht.
  assert (Hrefresh :
    forall X : option error * State,
      X = match refreshToken E (ClientWithRefresh.refreshToken c)
                  (ClientWithRefresh.tenantID c) log with
          | (inl err, log') =>
              (Some (ErrRefreshFailed err), {| this := c; sent := log' |})
          | (inr tr, log') =>
              (None, {| this := afterRefresh c tr; sent := log' |})
          end ->
      sent (snd X) = log \/
      sent (snd X) = (log ++ [refreshRequest (ClientWithRefresh.refreshToken c)
                                             (ClientWithRefresh.tenantID c)])%list).
  { intros X ->.
    destruct (refreshToken E _ _ log) as [[e|tr] log']; cbn in Ht |- *;
      rewrite Ht;
      destruct (isEmpty (ClientWithRefresh.refreshToken c));
      try destruct (requestable E _); auto. }
  destruct (token.ParseToken _ _ _) as [err|info].
  - destruct (isEmpty (ClientWithRefresh.refreshToken c)) eqn:Hrt;
      [left; reflexivity|]. apply Hrefresh. reflexivity.
  - destruct (negb (token.IsExpired info) && negb (token.ExpiresSoon info));
      [left; reflexivity|].
    destruct (isEmpty (ClientWithRefresh.refreshToken c)) eqn:Hrt;
      [left; reflexivity|]. apply Hrefresh. reflexivity.
Qed.

(** The reaction to a 401, case by case. *)
Lemma refreshTokenOn401_eq (endpoint method : string) (body : Body)
    (result : option Target) (c : ClientWithRefresh.t) (log : list Request) :
  refreshTokenOn401 E endpoint method body result {| this := c; sent := log |} =
    if isEmpty (ClientWithRefresh.refreshToken c)
    then (Err Err401NoRefresh, {| this := c; sent := log |})
    else
      match refreshToken E (ClientWithRefresh.refreshToken c)
              (ClientWithRefresh.tenantID c) log with
      | (inl err, log') =>
          (Err (Err401RefreshFailed err), {| this := c; sent := log' |})
      | (inr tr, log') =>
          let st' := {| this := afterRefresh c tr; sent := log' |} in
          match newAPIRequest E method
                  (Client.baseURL (ClientWithRefresh.Client c)) endpoint body
                  (AccessToken tr) with
          | None => (Err ErrCreateRetryRequest, st')
          | Some req =>
              (match http_Do E log' req with
               | DoError => Err ErrExecuteRetry
               | Response _ None => Err ErrReadRetryBody
               | Response StatusCode (Some respBody) =>
                   if non2xx StatusCode then
                     match json_Unmarshal_ErrorResponse E respBody with
                     | None => Err (ErrAPIAfterRefreshStatus StatusCode respBody)
                     | Some errorResp =>
                         Err (ErrAPIAfterRefresh (Code errorResp) (Message errorResp))
                     end
                   else if notNil result && Nat.ltb 0 (String.length respBody) then
                     match json_Unmarshal E respBody result with
                     | None => Err ErrUnmarshalRetry
                     | Some v => Ok (Some v)
                     end
                   else Ok None
               end,
               {| this := afterRefresh c tr; sent := (log' ++ [req])%list |})
          end
      end.
Proof.
  unfold refreshTokenOn401.
  unfold bind at 1. unfold get_this at 1. cbn [this].
  destruct (isEmpty (ClientWithRefresh.refreshToken c)); [reflexivity|].
  rewrite (refresh_step (fun e => Err (Err401RefreshFailed e))).
  destruct (refreshToken E _ _ log) as [[e|tr] log']; [reflexivity|].
  unfold bind at 1. unfold get_this at 1. cbn [this afterRefresh
    ClientWithRefresh.Client Client.baseURL Client.accessToken].
  cbv zeta.
  destruct (newAPIRequest E method _ endpoint body (AccessToken tr)) as [req|];
    [|reflexivity].
  unfold bind, on_network, Do, ret. cbn [sent this].
  destruct (http_Do E log' req) as [|status [respBody|]]; try reflexivity.
  destruct (non2xx status).
  - destruct (json_Unmarshal_ErrorResponse E respBody); reflexivity.
  - destruct (notNil result && Nat.ltb 0 (String.length respBody));
      [|reflexivity].
    destruct (json_Unmarshal E respBody result); reflexivity.
Qed.

Lemma call_check_failed (op : Op) (st st' : State) (e : error) :
  checkAndRefreshToken E st = (Some e, st') ->
  call E op st = (Err (ErrTokenCheck e), st').
Proof.
  intros Hc.
  destruct op; cbn [call];
    unfold ClientWithRefresh_Get, ClientWithRefresh_Post,
      ClientWithRefresh_Patch, ClientWithRefresh_Delete;
    unfold bind at 1; rewrite Hc; reflexivity.
Qed.

Lemma requestBody_encodePayload (payload : option Go.Value) :
  match payload with
  | None => Some (Bytes EmptyString)
  | Some p => Bytes <$> json_Encode E p
  end = Bytes <$> encodePayload E payload.
Proof. destruct payload; reflexivity. Qed.

(** A call whose pre-flight check passes: the request is built from the
    receiver as the check left it and sent; an answer 401 hands over to
    [refreshTokenOn401], any other answer ends the call. *)
Lemma call_after_check (op : Op) (st : State) (c : ClientWithRefresh.t)
    (log : list Request) :
  checkAndRefreshToken E st = (None, {| this := c; sent := log |}) ->
  match primaryRequest E (ClientWithRefresh.Client c) op with
  | None => exists e, call E op st = (Err e, {| this := c; sent := log |})
  | Some req =>
      let st1 := {| this := c; sent := (log ++ [req])%list |} in
      if answered401 op (http_Do E log req)
      then call E op st =
             refreshTokenOn401 E (endpoint op) (method op) (ReqBody req)
               (resultOf op) st1
      else exists r, call E op st = (r, st1)
  end.
Proof.
  intros Hc. remember (call E op st) as X eqn:HX.
  unfold primaryRequest.
  destruct op as [ep result|ep payload result|ep payload result|ep];
    cbn [call requestBody endpoint method resultOf isDelete] in HX |- *;
    unfold ClientWithRefresh_Get, ClientWithRefresh_Post,
      ClientWithRefresh_Patch, ClientWithRefresh_Delete in HX;
    unfold bind at 1 in HX; rewrite Hc in HX;
    try rewrite requestBody_encodePayload;
    try (destruct (encodePayload E payload) as [body|] eqn:Henc;
         cbn [fmap option_fmap option_map];
         [|eexists; exact HX]);
    unfold bind at 1 in HX; unfold get_this at 1 in HX; cbn [this] in HX;
    cbv zeta in HX;
    rewrite newAPIRequest_requestable in HX; unfold requestable in HX;
    (destruct (stringContainsCTLByte _); cbn [negb andb] in HX;
     [eexists; exact HX|]);
    (destruct (url_Parse E _); [|eexists; exact HX]);
    unfold bind at 1 in HX; unfold on_network, Do in HX;
    cbn [sent this ReqBody default] in HX |- *;
    unfold answered401; cbn [isDelete];
    match goal with |- context [http_Do E log ?r] =>
      destruct (http_Do E log r) as [|status rbody] end;
    try (eexists; exact HX);
    destruct (status =? 401) eqn:H401; cbn [andb orb];
    try (destruct rbody as [rb|]; cbn [notNil]);
    try (eexists; exact HX); try exact HX.
  all: subst X; unfold ret;
    repeat match goal with
           | |- context [if ?b then _ else _] => destruct b
           | |- context [match ?o with Some _ => _ | None => _ end] => destruct o
           end;
    eexists; reflexivity.
Qed.

Lemma primaryRequest_inv (c : Client.t) (op : Op) (req : Request) :
  primaryRequest E c op = Some req ->
  requestable E (Client.baseURL c +:+ endpoint op) = true /\
  exists body,
    req = {| Method := method op;
             URL := Client.baseURL c +:+ endpoint op;
             Authorization := Some ("Bearer " +:+ Client.accessToken c);
             ContentType := Some "application/json";
             ReqBody := body |}.
Proof.
  unfold primaryRequest, requestable.
  destruct (requestBody E op) as [body|]; [|discriminate].
  destruct (stringContainsCTLByte _); [discriminate|].
  destruct (url_Parse E _); [|discriminate].
  intros [= <-]. split; [reflexivity|]. exists body. reflexivity.
Qed.

(** C5. A client whose access token parses as expired and whose refresh
    token is empty fails every request at once, with an error, and sends
    nothing: the state, traffic included, is unchanged. *)
Theorem expired_token_without_refresh_token_fails_offline
    (op : Op) (st : State) (info : token.TokenInfo) :
  isEmpty (ClientWithRefresh.refreshToken (this st)) = true ->
  token.ParseToken (jwt_ParseUnverified E) (time_Now E (sent st))
    (Client.accessToken (ClientWithRefresh.Client (this st))) = inr info ->
  token.IsExpired info = true ->
  call E op st = (Err (ErrTokenCheck ErrExpiredNoRefresh), st).
Proof.
  destruct st as [c log]. cbn [this sent]. intros Hrt Hparse Hexp.
  apply call_check_failed. rewrite checkAndRefreshToken_eq. cbv zeta.
  rewrite Hparse, Hexp, Hrt. reflexivity.
Qed.

(** C10. With an empty refresh token and an access token that parses as
    not expired (expiring soon or not), the pre-flight check returns no
    error, changes nothing and sends nothing; the call then sends its
    request under the existing access token, and nothing else. *)
Theorem unexpired_token_without_refresh_token_proceeds
    (op : Op) (st : State) (info : token.TokenInfo) :
  isEmpty (ClientWithRefresh.refreshToken (this st)) = true ->
  token.ParseToken (jwt_ParseUnverified E) (time_Now E (sent st))
    (Client.accessToken (ClientWithRefresh.Client (this st))) = inr info ->
  token.IsExpired info = false ->
  checkAndRefreshToken E st = (None, st) /\
  match primaryRequest E (ClientWithRefresh.Client (this st)) op with
  | None => exists e, call E op st = (Err e, st)
  | Some req =>
      Authorization req =
        Some ("Bearer " +:+ Client.accessToken (ClientWithRefresh.Client (this st))) /\
      exists r,
        call E op st = (r, {| this := this st; sent := (sent st ++ [req])%list |})
  end.
Proof.
  destruct st as [c log]. cbn [this sent]. intros Hrt Hparse Hexp.
  assert (Hc : checkAndRefreshToken E {| this := c; sent := log |} =
               (None, {| this := c; sent := log |})).
  { rewrite checkAndRefreshToken_eq. cbv zeta. rewrite Hparse, Hexp, Hrt.
    destruct (token.ExpiresSoon info); reflexivity. }
  split; [exact Hc|].
  pose proof (call_after_check op _ _ _ Hc) as H.
  destruct (primaryRequest E (ClientWithRefresh.Client c) op) as [req|] eqn:Hreq;
    [|exact H].
  split.
  - destruct (primaryRequest_inv _ _ _ Hreq) as [_ [body ->]]. reflexivity.
  - cbv zeta in H. destruct (answered401 op (http_Do E log req)); [|exact H].
    rewrite refreshTokenOn401_eq, Hrt in H. eexists. exact H.
Qed.

(** C1 (amended). When the refresh token is non-empty and the access token
    parses as expired or as expiring soon, a failure of the proactive
    refresh is returned to the caller as a refresh-failed error inside the
    token-check error, in both cases alike, and the request is not
    executed: the traffic of the call is at most the refresh request. *)
Theorem proactive_refresh_failure_is_returned
    (op : Op) (st : State) (info : token.TokenInfo) (e : error)
    (log' : list Request) :
  isEmpty (ClientWithRefresh.refreshToken (this st)) = false ->
  token.ParseToken (jwt_ParseUnverified E) (time_Now E (sent st))
    (Client.accessToken (ClientWithRefresh.Client (this st))) = inr info ->
  token.IsExpired info || token.ExpiresSoon info = true ->
  refreshToken E (ClientWithRefresh.refreshToken (this st))
    (ClientWithRefresh.tenantID (this st)) (sent st) = (inl e, log') ->
  call E op st =
    (Err (ErrTokenCheck (ErrRefreshFailed e)), {| this := this st; sent := log' |}) /\
  (log' = sent st \/
   log' = (sent st ++ [refreshRequest (ClientWithRefresh.refreshToken (this st))
                                       (ClientWithRefresh.tenantID (this st))])%list).
Proof.
  destruct st as [c log]. cbn [this sent]. intros Hrt Hparse Hstale Hrefresh.
  split.
  - apply call_check_failed. rewrite checkAndRefreshToken_eq. cbv zeta.
    rewrite Hparse, Hrt, Hrefresh.
    destruct (token.IsExpired info), (token.ExpiresSoon info);
      try discriminate; reflexivity.
  - pose proof (refreshToken_traffic E (ClientWithRefresh.refreshToken c)
                  (ClientWithRefresh.tenantID c) log) as Ht.
    rewrite Hrefresh, Hrt in Ht. cbn [snd] in Ht.
    destruct (requestable E _); auto.
Qed.

(** The traffic of the reaction to a 401: nothing, or the refresh request
    carrying the receiver's refresh token, followed by at most the retry. *)
Lemma refreshTokenOn401_traffic (endpoint method : string) (body : Body)
    (result : option Target) (st : State) :
  let log' := sent (snd (refreshTokenOn401 E endpoint method body result st)) in
  log' = sent st \/
  exists rest,
    log' = (sent st ++ refreshRequest (ClientWithRefresh.refreshToken (this st))
                         (ClientWithRefresh.tenantID (this st)) :: rest)%list.
Proof.
  destruct st as [c log]. cbn [this sent]. rewrite refreshTokenOn401_eq.
  destruct (isEmpty (ClientWithRefresh.refreshToken c)) eqn:Hrt;
    [left; reflexivity|].
  pose proof (refreshToken_traffic E (ClientWithRefresh.refreshToken c)
                (ClientWithRefresh.tenantID c) log) as Ht.
  rewrite Hrt in Ht.
  destruct (refreshToken E _ _ log) as [[e|tr] log2] eqn:Hrefresh; cbn [snd] in Ht.
  - cbn [snd sent]. rewrite Ht.
    destruct (requestable E _); [right; exists []|left]; reflexivity.
  - destruct (refreshToken_ok_inv E _ _ _ _ _ Hrefresh) as (_ & -> & _).
    cbv zeta. right.
    destruct (newAPIRequest E method _ endpoint body (AccessToken tr)) as [req|];
      cbn [snd sent].
    + exists [req]. rewrite <- app_assoc. reflexivity.
    + exists []. reflexivity.
Qed.

(** C6. After a successful refresh, by the pre-flight check or by the
    reaction to a 401, the access token is the one of the response; the
    refresh token is the one of the response when that is non-empty and is
    unchanged otherwise; and a later refresh, from whichever of the two,
    sends that refresh token. *)
Theorem successful_refresh_replaces_tokens
    (st : State) (tr : TokenResponse) (log' : list Request) :
  refreshToken E (ClientWithRefresh.refreshToken (this st))
    (ClientWithRefresh.tenantID (this st)) (sent st) = (inr tr, log') ->
  exists c' : ClientWithRefresh.t,
    (needsRefresh E st = true ->
       checkAndRefreshToken E st = (None, {| this := c'; sent := log' |})) /\
    (forall endpoint method body result,
       this (snd (refreshTokenOn401 E endpoint method body result st)) = c') /\
    Client.accessToken (ClientWithRefresh.Client c') = AccessToken tr /\
    ClientWithRefresh.refreshToken c' =
      (if isEmpty (RefreshToken tr)
       then ClientWithRefresh.refreshToken (this st)
       else RefreshToken tr) /\
    forall log2 : list Request,
      let st2 := {| this := c'; sent := log2 |} in
      let next :=
        refreshRequest
          (if isEmpty (RefreshToken tr)
           then ClientWithRefresh.refreshToken (this st)
           else RefreshToken tr)
          (ClientWithRefresh.tenantID (this st)) in
      (sent (snd (checkAndRefreshToken E st2)) = log2 \/
       sent (snd (checkAndRefreshToken E st2)) = (log2 ++ [next])%list) /\
      (forall endpoint method body result,
         sent (snd (refreshTokenOn401 E endpoint method body result st2)) = log2 \/
         exists rest,
           sent (snd (refreshTokenOn401 E endpoint method body result st2)) =
             (log2 ++ next :: rest)%list).
Proof.
  destruct st as [c log]. cbn [this sent]. intros Hrefresh.
  destruct (refreshToken_ok_inv E _ _ _ _ _ Hrefresh) as (Hrt & Hlog' & _).
  exists (afterRefresh c tr). repeat split.
  - intros Hneeds. rewrite checkAndRefreshToken_eq. cbv zeta.
    unfold needsRefresh in Hneeds. cbn [this sent] in Hneeds.
    rewrite Hrt, Hrefresh.
    destruct (token.ParseToken _ _ _) as [err|info]; [reflexivity|].
    destruct (token.IsExpired info), (token.ExpiresSoon info);
      try discriminate; reflexivity.
  - intros endpoint method body result.
    rewrite refreshTokenOn401_eq, Hrt, Hrefresh. cbv zeta.
    destruct (newAPIRequest E method _ endpoint body (AccessToken tr));
      reflexivity.
  - exact (checkAndRefreshToken_traffic
             {| this := afterRefresh c tr; sent := log2 |}).
  - intros endpoint method body result.
    exact (refreshTokenOn401_traffic endpoint method body result
             {| this := afterRefresh c tr; sent := log2 |}).
Qed.

End RefreshAwareClient.

(* ===================================================================== *)
(** ** Properties of the request executor                                 *)
(* ===================================================================== *)

Section RequestExecutor.

Import graph spec.

Variable E : Env.

(** Post and Patch decode a 2xx body exactly when a result is supplied and
    the body is non-empty, and succeed without decoding otherwise. *)
Lemma Client_Post_Patch_decoding (c : Client.t) (op : Op) (req : Request)
    (log : list Request) (status : Z) (body : string) :
  match op with OpPost _ _ _ | OpPatch _ _ _ => True | _ => False end ->
  primaryRequest E c op = Some req ->
  http_Do E log req = Response status (Some body) ->
  non2xx status = false ->
  callPlain E c op log =
    (match resultOf op with
     | Some target =>
         if isEmpty body then Ok None
         else match json_Unmarshal_into E target body with
              | Some v => Ok (Some v)
              | None => Err ErrUnmarshal
              end
     | None => Ok None
     end, (log ++ [req])%list).
Proof.
  intros Hop Hreq Hdo H2xx.
  destruct (primaryRequest_inv E _ _ _ Hreq) as [Hable [b Hreq']].
  unfold primaryRequest in Hreq.
  destruct op as [|ep payload result|ep payload result|]; try contradiction;
    cbn [callPlain requestBody endpoint method resultOf] in *;
    unfold Client_Post, Client_Patch; cbv zeta;
    rewrite (requestBody_encodePayload E) in Hreq;
    (destruct (encodePayload E payload) as [pb|];
     cbn [fmap option_fmap option_map] in Hreq; [|discriminate]);
    rewrite newAPIRequest_requestable, Hable;
    fold (requestable E (Client.baseURL c +:+ ep)) in Hreq;
    unfold requestable in Hable;
    (destruct (stringContainsCTLByte _); [discriminate|]);
    cbn [negb andb] in Hable; rewrite Hable in Hreq;
    injection Hreq as <-;
    unfold bind, Do, ret; rewrite Hdo, H2xx, length_positive;
    (destruct result as [target|]; cbn [notNil andb]; [|reflexivity]);
    (destruct body as [|a body']; [reflexivity|]);
    cbn [isEmpty String.eqb negb json_Unmarshal];
    destruct (json_Unmarshal_into E target (String a body')); reflexivity.
Qed.

(** C2, where the code departs from it. Get decodes every 2xx body, also
    when no result is supplied or the body is empty, and then fails with
    the decoding error although the request was answered 2xx. *)
Theorem Client_Get_decodes_unconditionally (c : Client.t) (ep : string)
    (result : option Target) (req : Request) (log : list Request)
    (status : Z) (body : string) :
  primaryRequest E c (OpGet ep result) = Some req ->
  http_Do E log req = Response status (Some body) ->
  non2xx status = false ->
  result = None \/ body = EmptyString ->
  Client_Get E c ep result log = (Err ErrUnmarshal, (log ++ [req])%list).
Proof.
  intros Hreq Hdo H2xx Hskip.
  destruct (primaryRequest_inv E _ _ _ Hreq) as [Hable [b Hreq']].
  unfold primaryRequest in Hreq. cbn [requestBody endpoint method] in Hreq, Hable.
  unfold Client_Get. cbv zeta. rewrite newAPIRequest_requestable, Hable.
  unfold requestable in Hable.
  destruct (stringContainsCTLByte _); [discriminate|].
  cbn [negb andb] in Hable. rewrite Hable in Hreq. injection Hreq as <-.
  unfold bind, Do, ret. rewrite Hdo, H2xx.
  destruct Hskip as [-> | ->]; [|reflexivity].
  destruct body; reflexivity.
Qed.

End RequestExecutor.

(* ===================================================================== *)
(** ** Further properties of the token inspector                          *)
(* ===================================================================== *)

Section TokenQueries.

Import token.

(** A successful inspection computes every field from the expiry instant. *)
Lemma ParseToken_inv parser now tok info :
  ParseToken parser now tok = inr info ->
  exists claims exp expTime,
    parser tok = inr (jwt.MapClaims claims) /\
    claims !! "exp" = Some exp /\
    match exp with
    | Go.VFloat64 v => expTime = time.Unix (Go.int64_of_float64 v) 0
    | Go.VInt64 v => expTime = time.Unix v 0
    | _ => False
    end /\
    info = {| ExpiresAt := expTime;
              IsExpired := time.After now expTime;
              TimeUntilExp := time.Sub expTime now;
              ExpiresSoon := negb (time.After now expTime)
                             && (time.Sub expTime now <? 10 * time.Minute) |}.
Proof.
  unfold ParseToken.
  destruct (parser tok) as [msg|[claims|]]; try discriminate.
  destruct (claims !! "exp") as [exp|] eqn:Hexp; [|discriminate].
  intros H. exists claims, exp.
  destruct exp; try discriminate; injection H as <-;
    eexists; (split; [reflexivity|]); (split; [exact Hexp|]);
    split; reflexivity.
Qed.

Lemma ParseToken_at_other_time parser now now' tok info :
  ParseToken parser now tok = inr info ->
  ParseToken parser now' tok =
    inr {| ExpiresAt := ExpiresAt info;
           IsExpired := time.After now' (ExpiresAt info);
           TimeUntilExp := time.Sub (ExpiresAt info) now';
           ExpiresSoon := negb (time.After now' (ExpiresAt info))
                          && (time.Sub (ExpiresAt info) now' <? 10 * time.Minute) |}.
Proof.
  intros H.
  destruct (ParseToken_inv _ _ _ _ H) as (claims & exp & expTime & Hp & Hexp & Hv & ->).
  cbn [ExpiresAt]. unfold ParseToken. rewrite Hp, Hexp.
  destruct exp; try contradiction; subst expTime; reflexivity.
Qed.

Lemma Sub_bounds (t u : time.Time) :
  time.minDuration <= time.Sub t u <= time.maxDuration.
Proof.
  unfold time.Sub, time.maxDuration, time.minDuration, Go.MaxInt64, Go.MinInt64.
  destruct (Z.ltb_spec (2 ^ 63 - 1) (t - u));
    [|destruct (Z.ltb_spec (t - u) (- 2 ^ 63))]; lia.
Qed.

Lemma Sub_monotone (t u u' : time.Time) :
  u <= u' -> time.Sub t u' <= time.Sub t u.
Proof.
  intros Hu.
  unfold time.Sub, time.maxDuration, time.minDuration, Go.MaxInt64, Go.MinInt64.
  destruct (Z.ltb_spec (2 ^ 63 - 1) (t - u));
    destruct (Z.ltb_spec (2 ^ 63 - 1) (t - u'));
    try destruct (Z.ltb_spec (t - u) (- 2 ^ 63));
    try destruct (Z.ltb_spec (t - u') (- 2 ^ 63)); lia.
Qed.

Lemma ParseToken_flags parser now tok info :
  ParseToken parser now tok = inr info ->
  (IsExpired info = true <-> ExpiresAt info < now) /\
  (IsExpired info = true <-> TimeUntilExp info < 0) /\
  (ExpiresSoon info = true <-> 0 <= TimeUntilExp info < 600 * 1000000000).
Proof.
  intros H.
  destruct (ParseToken_inv _ _ _ _ H) as (claims & exp & expTime & _ & _ & _ & ->).
  cbn [ExpiresAt IsExpired TimeUntilExp ExpiresSoon].
  destruct (Sub_sign expTime now) as [Hneg Hlt].
  specialize (Hlt (10 * time.Minute)).
  assert (Hten : 10 * time.Minute = 600 * 1000000000) by reflexivity.
  rewrite Hten in Hlt |- *.
  assert (Hrange : 0 <= 600 * 1000000000 <= time.maxDuration)
    by (unfold time.maxDuration, Go.MaxInt64; lia).
  specialize (Hlt Hrange).
  unfold time.After.
  destruct (Z.ltb_spec expTime now) as [Hpast|Hfuture]; cbn [negb andb].
  - repeat split; try lia; try discriminate; intros; try reflexivity; lia.
  - rewrite Z.ltb_lt.
    repeat split; try lia; try discriminate; intros; lia.
Qed.

(** X1. The fields of a successful inspection are consistent: the token is
    expired exactly when its expiry lies before the clock, which is exactly
    when the time until expiry is negative; it expires soon exactly when the
    time until expiry is at least zero and under ten minutes, so never when
    it is expired; and the time until expiry is a Duration. *)
Theorem ParseToken_fields_consistent parser now tok info :
  ParseToken parser now tok = inr info ->
  (IsExpired info = true <-> ExpiresAt info < now) /\
  (IsExpired info = true <-> TimeUntilExp info < 0) /\
  (ExpiresSoon info = true <-> 0 <= TimeUntilExp info < 600 * 1000000000) /\
  (IsExpired info = true -> ExpiresSoon info = false) /\
  time.minDuration <= TimeUntilExp info <= time.maxDuration.
Proof.
  intros H.
  destruct (ParseToken_flags _ _ _ _ H) as (Hat & Hneg & Hsoon).
  split; [exact Hat|]. split; [exact Hneg|]. split; [exact Hsoon|]. split.
  - intros Hexp. apply Hneg in Hexp.
    destruct (ExpiresSoon info); [|reflexivity].
    assert (0 <= TimeUntilExp info < 600 * 1000000000) by (apply Hsoon; reflexivity).
    lia.
  - destruct (ParseToken_inv _ _ _ _ H) as (_ & _ & expTime & _ & _ & _ & ->).
    cbn [TimeUntilExp]. apply Sub_bounds.
Qed.

(** X2. Expiry is monotone in the clock: inspected at a later time, the same
    token has the same expiry instant and no more time left; once expired it
    stays expired, and once expiring soon it is expiring soon or expired. *)
Theorem ParseToken_expiry_monotone parser now now' tok info :
  now <= now' ->
  ParseToken parser now tok = inr info ->
  exists info',
    ParseToken parser now' tok = inr info' /\
    ExpiresAt info' = ExpiresAt info /\
    TimeUntilExp info' <= TimeUntilExp info /\
    (IsExpired info = true -> IsExpired info' = true) /\
    (ExpiresSoon info = true ->
       IsExpired info' = true \/ ExpiresSoon info' = true).
Proof.
  intros Hle H.
  pose proof (ParseToken_at_other_time _ _ now' _ _ H) as H'.
  destruct (ParseToken_flags _ _ _ _ H) as (He & _ & Hs).
  eexists. split; [exact H'|]. cbn [ExpiresAt IsExpired TimeUntilExp ExpiresSoon].
  destruct (ParseToken_inv _ _ _ _ H) as (_ & _ & expTime & _ & _ & _ & Hinfo).
  assert (Ht : TimeUntilExp info = time.Sub (ExpiresAt info) now)
    by (rewrite Hinfo; reflexivity).
  split; [reflexivity|]. split; [rewrite Ht; apply Sub_monotone; exact Hle|].
  unfold time.After. split.
  - intros Hexp. apply He in Hexp. apply Z.ltb_lt. lia.
  - intros Hsoon. apply Hs in Hsoon.
    destruct (Z.ltb_spec (ExpiresAt info) now') as [Hpast|Hfuture];
      [left; reflexivity|right]. cbn [negb andb]. apply Z.ltb_lt.
    pose proof (Sub_monotone (ExpiresAt info) now now' Hle) as Hm.
    assert (Hten : 10 * time.Minute = 600 * 1000000000) by reflexivity.
    rewrite Hten. lia.
Qed.

(** X3. The expiry instant and the failure of an inspection do not depend on
    the clock: [GetExpirationTime] gives the same answer at any two times. *)
Theorem GetExpirationTime_clock_independent parser now now' tok :
  GetExpirationTime parser now tok = GetExpirationTime parser now' tok.
Proof.
  unfold GetExpirationTime.
  destruct (ParseToken parser now tok) as [e|info] eqn:H.
  - unfold ParseToken in H |- *.
    destruct (parser tok) as [msg|[claims|]]; [congruence| |congruence].
    destruct (claims !! "exp") as [exp|]; [|congruence].
    destruct exp; try discriminate; congruence.
  - rewrite (ParseToken_at_other_time _ _ now' _ _ H). reflexivity.
Qed.

(** X4. The four queries fail together, with the error of the inspection;
    when they succeed, the token is expired exactly when the time until
    expiry is negative, expiring soon exactly when that time is at least
    zero and under ten minutes, and the time until expiry is the expiry
    instant minus the clock whenever that difference is a Duration. *)
Theorem token_queries_agree parser now tok :
  match GetTimeUntilExpiration parser now tok with
  | inl e =>
      IsExpired' parser now tok = inl e /\
      IsExpiringSoon parser now tok = inl e /\
      GetExpirationTime parser now tok = inl e
  | inr d =>
      IsExpired' parser now tok = inr (d <? 0) /\
      IsExpiringSoon parser now tok = inr ((0 <=? d) && (d <? 600 * 1000000000)) /\
      exists t,
        GetExpirationTime parser now tok = inr t /\
        (time.minDuration <= t - now <= time.maxDuration -> d = t - now)
  end.
Proof.
  unfold GetTimeUntilExpiration, IsExpired', IsExpiringSoon, GetExpirationTime.
  destruct (ParseToken parser now tok) as [e|info] eqn:H.
  - repeat split.
  - destruct (ParseToken_flags _ _ _ _ H) as (_ & He & Hs).
    destruct (ParseToken_inv _ _ _ _ H) as (_ & _ & expTime & _ & _ & _ & Hinfo).
    split; [|split].
    + f_equal. destruct (Z.ltb_spec (TimeUntilExp info) 0) as [Hn|Hn].
      * apply He. exact Hn.
      * destruct (IsExpired info); [|reflexivity].
        assert (TimeUntilExp info < 0) by (apply He; reflexivity). lia.
    + f_equal.
      destruct (Z.leb_spec 0 (TimeUntilExp info));
        destruct (Z.ltb_spec (TimeUntilExp info) (600 * 1000000000));
        cbn [andb].
      * apply Hs. lia.
      * destruct (ExpiresSoon info); [|reflexivity].
        assert (0 <= TimeUntilExp info < 600 * 1000000000) by (apply Hs; reflexivity).
        lia.
      * destruct (ExpiresSoon info); [|reflexivity].
        assert (0 <= TimeUntilExp info < 600 * 1000000000) by (apply Hs; reflexivity).
        lia.
      * destruct (ExpiresSoon info); [|reflexivity].
        assert (0 <= TimeUntilExp info < 600 * 1000000000) by (apply Hs; reflexivity).
        lia.
    + exists (ExpiresAt info). split; [reflexivity|].
      intros Hr. rewrite Hinfo. cbn [TimeUntilExp ExpiresAt].
      rewrite Hinfo in Hr. cbn [ExpiresAt] in Hr.
      unfold time.Sub.
      destruct (Z.ltb_spec time.maxDuration (expTime - now)); [lia|].
      destruct (Z.ltb_spec (expTime - now) time.minDuration); [lia|]. reflexivity.
Qed.

(** X5. An "exp" claim is read alike in its two representations: a float64
    claim whose integer part is the int64 [z] gives the inspection of the
    int64 claim [z]. *)
Theorem ParseToken_float_like_int parserF parserI now tok
    (claimsF claimsI : gmap string Go.Value) f z :
  parserF tok = inr (jwt.MapClaims claimsF) ->
  claimsF !! "exp" = Some (Go.VFloat64 f) ->
  parserI tok = inr (jwt.MapClaims claimsI) ->
  claimsI !! "exp" = Some (Go.VInt64 z) ->
  Go.float64_trunc f = Some z ->
  Go.is_int64 z = true ->
  ParseToken parserF now tok = ParseToken parserI now tok.
Proof.
  intros HF HeF HI HeI Htr Hz. unfold ParseToken.
  rewrite HF, HeF, HI, HeI. unfold Go.int64_of_float64. rewrite Htr, Hz.
  reflexivity.
Qed.

End TokenQueries.

(* ===================================================================== *)
(** ** Further properties of the credential refresher and of the plain    *)
(** ** client                                                             *)
(* ===================================================================== *)

Section PlainClient.

Import graph spec.

Variable E : Env.

(** X6. The refresher returns a token response exactly when the refresh
    token is non-empty, the request can be built, and the token endpoint
    answers 2xx with a readable body that decodes to that response with a
    non-empty access token; the traffic is then the one refresh request. In
    particular no answer outside 2xx ever yields a token. *)
Theorem refreshToken_success_iff (rt tenantID : string)
    (log log' : list Request) (tr : TokenResponse) :
  refreshToken E rt tenantID log = (inr tr, log') <->
  isEmpty rt = false /\
  requestable E (tokenURL tenantID) = true /\
  log' = (log ++ [refreshRequest rt tenantID])%list /\
  exists status body,
    http_Do E log (refreshRequest rt tenantID) = Response status (Some body) /\
    non2xx status = false /\
    json_Unmarshal_TokenResponse E body = Some tr /\
    isEmpty (AccessToken tr) = false.
Proof.
  unfold refreshToken. rewrite tokenURL_eq, http_NewRequest_requestable.
  split.
  - destruct (isEmpty rt); [discriminate|].
    destruct (requestable E (tokenURL tenantID)); [|discriminate].
    unfold_monad. cbn. fold (refreshRequest rt tenantID).
    destruct (http_Do E log (refreshRequest rt tenantID)) as [|status [body|]];
      try discriminate.
    destruct (non2xx status) eqn:H2xx.
    + destruct (json_Unmarshal_ErrorResponse E body); discriminate.
    + destruct (json_Unmarshal_TokenResponse E body) as [tr'|] eqn:Hdec;
        [|discriminate].
      destruct (isEmpty (AccessToken tr')) eqn:Hat; [discriminate|].
      intros [= <- <-]. repeat split. exists status, body. repeat split; assumption.
  - intros (-> & -> & -> & status & body & Hdo & H2xx & Hdec & Hat).
    unfold_monad. cbn. fold (refreshRequest rt tenantID).
    rewrite Hdo, H2xx, Hdec, Hat. reflexivity.
Qed.

Lemma primaryRequest_requestable (c : Client.t) (op : Op) :
  primaryRequest E c op =
    match requestBody E op with
    | None => None
    | Some body =>
        if requestable E (Client.baseURL c +:+ endpoint op)
        then Some {| Method := method op;
                     URL := Client.baseURL c +:+ endpoint op;
                     Authorization := Some ("Bearer " +:+ Client.accessToken c);
                     ContentType := Some "application/json";
                     ReqBody := body |}
        else None
    end.
Proof.
  unfold primaryRequest, requestable.
  destruct (requestBody E op); [|reflexivity].
  destruct (stringContainsCTLByte _); [reflexivity|].
  destruct (url_Parse E _); reflexivity.
Qed.

(** A call on the plain client, case by case. *)
Lemma callPlain_eq (c : Client.t) (op : Op) (log : list Request) :
  callPlain E c op log =
    match primaryRequest E c op with
    | None =>
        (Err (match requestBody E op with
              | None => ErrEncodePayload
              | Some _ => ErrCreateRequest
              end), log)
    | Some req =>
        (match http_Do E log req with
         | DoError => Err ErrExecuteRequest
         | Response status body =>
             if isDelete op then
               if non2xx status
               then Err (apiError E status
                           (match body with
                            | Some b => b
                            | None => io_ReadAll_partial E (log ++ [req])%list
                            end))
               else Ok None
             else
               match body with
               | None => Err ErrReadBody
               | Some b =>
                   if non2xx status then Err (apiError E status b)
                   else
                     match op with
                     | OpGet _ result =>
                         match json_Unmarshal E b result with
                         | Some v => Ok (Some v)
                         | None => Err ErrUnmarshal
                         end
                     | _ =>
                         if notNil (resultOf op) && Nat.ltb 0 (String.length b)
                         then match json_Unmarshal E b (resultOf op) with
                              | Some v => Ok (Some v)
                              | None => Err ErrUnmarshal
                              end
                         else Ok None
                     end
               end
         end, (log ++ [req])%list)
    end.
Proof.
  rewrite primaryRequest_requestable.
  destruct op as [ep result|ep payload result|ep payload result|ep];
    cbn [callPlain requestBody endpoint method resultOf isDelete];
    unfold Client_Get, Client_Post, Client_Patch, Client_Delete; cbv zeta;
    try rewrite requestBody_encodePayload;
    try (destruct (encodePayload E payload) as [pb|];
         cbn [fmap option_fmap option_map]; [|reflexivity]);
    rewrite newAPIRequest_requestable;
    (destruct (requestable E _); [|reflexivity]);
    unfold bind, Do, ret, ReadAll_ignoring_error;
    match goal with |- context [http_Do E log ?r] =>
      destruct (http_Do E log r) as [|status [b|]] end;
    try reflexivity;
    cbn [default];
    repeat match goal with
           | |- context [if ?b then _ else _] => destruct b
           | |- context [match ?o with Some _ => _ | None => _ end] => destruct o
           end;
    reflexivity.
Qed.

Lemma callPlain_traffic (c : Client.t) (op : Op) (log : list Request) :
  snd (callPlain E c op log) =
    match primaryRequest E c op with
    | Some req => (log ++ [req])%list
    | None => log
    end.
Proof.
  rewrite callPlain_eq.
  destruct (primaryRequest E c op); reflexivity.
Qed.

(** X7. Every verb of the plain client sends at most one request, whatever
    the answer: there is no retry and no refresh. The request goes to the
    base URL followed by the endpoint, with the verb's method, the JSON
    content type and the client's access token as bearer token; nothing is
    sent when the payload does not encode or the URL does not parse. *)
Theorem Client_sends_its_request_once (c : Client.t) (op : Op)
    (log : list Request) :
  snd (callPlain E c op log) = log \/
  exists req,
    snd (callPlain E c op log) = (log ++ [req])%list /\
    Method req = method op /\
    URL req = Client.baseURL c +:+ endpoint op /\
    Authorization req = Some ("Bearer " +:+ Client.accessToken c) /\
    ContentType req = Some "application/json" /\
    requestBody E op = Some (ReqBody req).
Proof.
  rewrite callPlain_traffic, primaryRequest_requestable.
  destruct (requestBody E op) as [body|]; [|left; reflexivity].
  destruct (requestable E _); [|left; reflexivity].
  right. eexists. repeat split.
Qed.

(** X8. On the plain client an answer outside 2xx, 401 included, ends the
    call with the error of the API: the code and message of the body when it
    decodes as an error response, the status and the raw body otherwise.
    Delete does not check the reading of the body: when the reading fails,
    it takes what had been read of the body. *)
Theorem Client_non2xx_is_api_error (c : Client.t) (op : Op) (req : Request)
    (log : list Request) (status : Z) (body : option string) :
  primaryRequest E c op = Some req ->
  http_Do E log req = Response status body ->
  non2xx status = true ->
  isDelete op = true \/ body <> None ->
  let bytes :=
    match body with
    | Some b => b
    | None => io_ReadAll_partial E (log ++ [req])%list
    end in
  callPlain E c op log =
    (Err (match json_Unmarshal_ErrorResponse E bytes with
          | Some errorResp => ErrAPI (Code errorResp) (Message errorResp)
          | None => ErrAPIStatus status bytes
          end), (log ++ [req])%list).
Proof.
  intros Hreq Hdo Hnon Hbody. cbv zeta. rewrite callPlain_eq, Hreq, Hdo, Hnon.
  unfold apiError.
  destruct (isDelete op); [reflexivity|].
  destruct Hbody as [Hd|Hb]; [discriminate|].
  destruct body as [b|]; [reflexivity|contradiction].
Qed.

(** X9. A request that cannot be built fails the call before anything is
    sent: with the payload-encoding error when the payload of a Post or
    Patch does not encode, with the request-construction error otherwise. *)
Theorem Client_unbuildable_request_sends_nothing (c : Client.t) (op : Op)
    (log : list Request) :
  primaryRequest E c op = None ->
  callPlain E c op log =
    (Err (match op with
          | OpPost _ (Some p) _ | OpPatch _ (Some p) _ =>
              match json_Encode E p with
              | None => ErrEncodePayload
              | Some _ => ErrCreateRequest
              end
          | _ => ErrCreateRequest
          end), log).
Proof.
  intros Hreq. rewrite callPlain_eq, Hreq.
  destruct op as [ep result|ep [p|] result|ep [p|] result|ep];
    cbn [requestBody]; try reflexivity;
    destruct (json_Encode E p); reflexivity.
Qed.

(** X10. Get succeeds exactly when it is answered 2xx with a readable,
    non-empty body that decodes into a supplied result; it then returns the
    decoded value, and never succeeds without one. *)
Theorem Client_Get_success_iff (c : Client.t) (ep : string)
    (result : option Target) (log log' : list Request) (r : option Go.Value) :
  Client_Get E c ep result log = (Ok r, log') <->
  exists req status body target v,
    primaryRequest E c (OpGet ep result) = Some req /\
    log' = (log ++ [req])%list /\
    http_Do E log req = Response status (Some body) /\
    non2xx status = false /\
    isEmpty body = false /\
    result = Some target /\
    json_Unmarshal_into E target body = Some v /\
    r = Some v.
Proof.
  change (Client_Get E c ep result log) with (callPlain E c (OpGet ep result) log).
  rewrite callPlain_eq. cbn [isDelete].
  split.
  - destruct (primaryRequest E c (OpGet ep result)) as [req|]; [|discriminate].
    destruct (http_Do E log req) as [|status [body|]] eqn:Hdo; try discriminate.
    destruct (non2xx status) eqn:H2xx; [discriminate|].
    unfold json_Unmarshal.
    destruct body as [|a body']; [discriminate|].
    destruct result as [target|]; [|discriminate].
    destruct (json_Unmarshal_into E target (String a body')) as [v|] eqn:Hdec;
      [|discriminate].
    intros [= <- <-]. exists req, status, (String a body'), target, v.
    repeat split; assumption.
  - intros (req & status & body & target & v & -> & -> & -> & -> & Hne & -> & Hdec & ->).
    unfold json_Unmarshal. destruct body as [|a body']; [discriminate|].
    rewrite Hdec. reflexivity.
Qed.

(** X11. Delete succeeds on every 2xx answer without reading or decoding the
    body: whether the body is present, empty or unreadable makes no
    difference. *)
Theorem Client_Delete_2xx_ignores_body (c : Client.t) (ep : string)
    (req : Request) (log : list Request) (status : Z) (body : option string) :
  primaryRequest E c (OpDelete ep) = Some req ->
  http_Do E log req = Response status body ->
  non2xx status = false ->
  Client_Delete E c ep log = (Ok None, (log ++ [req])%list).
Proof.
  intros Hreq Hdo H2xx.
  change (Client_Delete E c ep log) with (callPlain E c (OpDelete ep) log).
  rewrite callPlain_eq, Hreq, Hdo. cbn [isDelete]. rewrite H2xx. reflexivity.
Qed.

End PlainClient.

(* ===================================================================== *)
(** ** Further properties of the refresh-aware client                     *)
(* ===================================================================== *)

Section RefreshAwareCalls.

Import graph spec.

Variable E : Env.

(** A call whose pre-flight check passes is the call of the plain client on
    the receiver as the check left it, unless the answer is a 401. *)
Lemma call_passed (op : Op) (st : State) (c : ClientWithRefresh.t)
    (log : list Request) :
  checkAndRefreshToken E st = (None, {| this := c; sent := log |}) ->
  call E op st =
    match primaryRequest E (ClientWithRefresh.Client c) op with
    | Some req =>
        if answered401 op (http_Do E log req)
        then refreshTokenOn401 E (endpoint op) (method op) (ReqBody req)
               (resultOf op) {| this := c; sent := (log ++ [req])%list |}
        else (fst (callPlain E (ClientWithRefresh.Client c) op log),
              {| this := c; sent := (log ++ [req])%list |})
    | None =>
        (fst (callPlain E (ClientWithRefresh.Client c) op log),
         {| this := c; sent := log |})
    end.
Proof.
  intros Hc. rewrite primaryRequest_requestable.
  destruct op as [ep result|ep payload result|ep payload result|ep];
    cbn [call callPlain requestBody endpoint method resultOf isDelete];
    unfold ClientWithRefresh_Get, ClientWithRefresh_Post,
      ClientWithRefresh_Patch, ClientWithRefresh_Delete,
      Client_Get, Client_Post, Client_Patch, Client_Delete;
    unfold bind at 1; rewrite Hc; cbv zeta;
    try rewrite requestBody_encodePayload;
    try (destruct (encodePayload E payload) as [pb|];
         cbn [fmap option_fmap option_map]; [|reflexivity]);
    unfold bind at 1; unfold get_this at 1; cbn [this];
    rewrite newAPIRequest_requestable;
    (destruct (requestable E _); [|reflexivity]);
    unfold bind, on_network, Do, ret; cbn [sent this ReqBody default fst];
    unfold answered401; cbn [isDelete];
    match goal with |- context [http_Do E log ?r] =>
      destruct (http_Do E log r) as [|status rbody] end;
    try reflexivity;
    destruct (status =? 401) eqn:H401; cbn [andb orb];
    try (destruct rbody as [rb|]; cbn [notNil]);
    try reflexivity;
    repeat match goal with
           | |- context [if ?b then _ else _] => destruct b
           | |- context [match ?o with Some _ => _ | None => _ end] => destruct o
           end;
    reflexivity.
Qed.

(** What the pre-flight check leaves behind: nothing changed and nothing
    sent; a failed refresh, with at most its request sent; or a successful
    refresh. *)
Lemma check_outcome (st : State) (x : option error) (c1 : ClientWithRefresh.t)
    (log1 : list Request) :
  checkAndRefreshToken E st = (x, {| this := c1; sent := log1 |}) ->
  let rr := refreshRequest (ClientWithRefresh.refreshToken (this st))
                           (ClientWithRefresh.tenantID (this st)) in
  (c1 = this st /\ log1 = sent st) \/
  (isEmpty (ClientWithRefresh.refreshToken (this st)) = false /\
   x <> None /\ c1 = this st /\ log1 = (sent st ++ [rr])%list) \/
  (isEmpty (ClientWithRefresh.refreshToken (this st)) = false /\
   x = None /\
   exists tr, (isEmpty (AccessToken tr) = false /\ issued E tr) /\
              c1 = afterRefresh (this st) tr /\ log1 = (sent st ++ [rr])%list).
Proof.
  destruct st as [c log]. cbn [this sent]. rewrite checkAndRefreshToken_eq.
  cbv zeta.
  assert (Hrefresh :
    isEmpty (ClientWithRefresh.refreshToken c) = false ->
    match refreshToken E (ClientWithRefresh.refreshToken c)
            (ClientWithRefresh.tenantID c) log with
    | (inl err, log') =>
        (Some (ErrRefreshFailed err), {| this := c; sent := log' |})
    | (inr tr, log') => (None, {| this := afterRefresh c tr; sent := log' |})
    end = (x, {| this := c1; sent := log1 |}) ->
    (c1 = c /\ log1 = log) \/
    (isEmpty (ClientWithRefresh.refreshToken c) = false /\
     x <> None /\ c1 = c /\
     log1 = (log ++ [refreshRequest (ClientWithRefresh.refreshToken c)
                                    (ClientWithRefresh.tenantID c)])%list) \/
    (isEmpty (ClientWithRefresh.refreshToken c) = false /\
     x = None /\
     exists tr, (isEmpty (AccessToken tr) = false /\ issued E tr) /\
                c1 = afterRefresh c tr /\
                log1 = (log ++ [refreshRequest (ClientWithRefresh.refreshToken c)
                                               (ClientWithRefresh.tenantID c)])%list)).
  { intros Hrt.
    pose proof (refreshToken_traffic E (ClientWithRefresh.refreshToken c)
                  (ClientWithRefresh.tenantID c) log) as Ht.
    rewrite Hrt in Ht.
    destruct (refreshToken E _ _ log) as [[e|tr] log'] eqn:Hr; cbn [snd] in Ht.
    - intros [= <- <- <-].
      destruct (requestable E _); [right; left|left]; rewrite Ht; auto.
    - intros [= <- <- <-].
      assert (Hiss : issued E tr) by (do 4 eexists; exact Hr).
      destruct (refreshToken_ok_inv E _ _ _ _ _ Hr) as (_ & -> & Hat).
      right; right. repeat split; auto. exists tr. auto. }
  destruct (token.ParseToken _ _ _) as [err|info].
  - destruct (isEmpty (ClientWithRefresh.refreshToken c)) eqn:Hrt;
      [intros [= <- <- <-]; left; auto|]. apply Hrefresh. reflexivity.
  - destruct (negb (token.IsExpired info) && negb (token.ExpiresSoon info));
      [intros [= <- <- <-]; left; auto|].
    destruct (isEmpty (ClientWithRefresh.refreshToken c)) eqn:Hrt;
      [intros [= <- <- <-]; left; auto|]. apply Hrefresh. reflexivity.
Qed.

(** What the reaction to a 401 leaves behind, likewise; after a successful
    refresh the retry is sent when it can be built. *)
Lemma on401_outcome (ep m : string) (body : Body) (result : option Target)
    (c1 : ClientWithRefresh.t) (log1 : list Request) :
  let rr := refreshRequest (ClientWithRefresh.refreshToken c1)
                           (ClientWithRefresh.tenantID c1) in
  let st2 := snd (refreshTokenOn401 E ep m body result
                    {| this := c1; sent := log1 |}) in
  (this st2 = c1 /\ sent st2 = log1) \/
  (isEmpty (ClientWithRefresh.refreshToken c1) = false /\
   this st2 = c1 /\ sent st2 = (log1 ++ [rr])%list) \/
  (isEmpty (ClientWithRefresh.refreshToken c1) = false /\
   exists tr,
     (isEmpty (AccessToken tr) = false /\ issued E tr) /\
     this st2 = afterRefresh c1 tr /\
     (sent st2 = (log1 ++ [rr])%list \/
      sent st2 =
        (log1 ++ [rr; {| Method := m;
                         URL := Client.baseURL (ClientWithRefresh.Client c1) +:+ ep;
                         Authorization := Some ("Bearer " +:+ AccessToken tr);
                         ContentType := Some "application/json";
                         ReqBody := body |}])%list)).
Proof.
  cbv zeta. rewrite refreshTokenOn401_eq.
  destruct (isEmpty (ClientWithRefresh.refreshToken c1)) eqn:Hrt;
    [left; auto|].
  pose proof (refreshToken_traffic E (ClientWithRefresh.refreshToken c1)
                (ClientWithRefresh.tenantID c1) log1) as Ht.
  rewrite Hrt in Ht.
  destruct (refreshToken E _ _ log1) as [[e|tr] log'] eqn:Hr; cbn [snd] in Ht.
  - cbn [snd this sent]. rewrite Ht.
    destruct (requestable E _); [right; left|left]; auto.
  - assert (Hiss : issued E tr) by (do 4 eexists; exact Hr).
    destruct (refreshToken_ok_inv E _ _ _ _ _ Hr) as (_ & -> & Hat).
    right; right. split; [reflexivity|]. exists tr. split; [split; assumption|].
    cbv zeta. rewrite newAPIRequest_requestable.
    destruct (requestable E (Client.baseURL (ClientWithRefresh.Client c1) +:+ ep));
      cbn [snd this sent].
    + split; [reflexivity|]. right. rewrite <- app_assoc. reflexivity.
    + split; [reflexivity|]. left. reflexivity.
Qed.

(** Every call, in one statement: the receiver and the traffic after the
    pre-flight check, then after the request and the reaction to a 401. *)
Lemma call_outcome (op : Op) (st : State) :
  exists (c1 c2 : ClientWithRefresh.t) (pre main : list Request),
    snd (call E op st) = {| this := c2; sent := (sent st ++ pre ++ main)%list |} /\
    ((c1 = this st /\ pre = []) \/
     (isEmpty (ClientWithRefresh.refreshToken (this st)) = false /\
      exists tr0,
        (c1 = this st \/
         ((isEmpty (AccessToken tr0) = false /\ issued E tr0) /\
          c1 = afterRefresh (this st) tr0)) /\
        pre = [refreshRequest (ClientWithRefresh.refreshToken (this st))
                              (ClientWithRefresh.tenantID (this st))])) /\
    ((c2 = c1 /\ main = []) \/
     exists req,
       primaryRequest E (ClientWithRefresh.Client c1) op = Some req /\
       ((c2 = c1 /\ main = [req]) \/
        (isEmpty (ClientWithRefresh.refreshToken c1) = false /\
         exists tr1,
           (c2 = c1 \/
            ((isEmpty (AccessToken tr1) = false /\ issued E tr1) /\
             c2 = afterRefresh c1 tr1)) /\
           (main = [req; refreshRequest (ClientWithRefresh.refreshToken c1)
                                        (ClientWithRefresh.tenantID c1)] \/
            (issued E tr1 /\ c2 = afterRefresh c1 tr1 /\
             main = [req; refreshRequest (ClientWithRefresh.refreshToken c1)
                                         (ClientWithRefresh.tenantID c1);
                     withBearer req (AccessToken tr1)]))))).
Proof.
  set (dummy := {| AccessToken := EmptyString; TokenType := EmptyString;
                   ExpiresIn := 0; RefreshToken := EmptyString;
                   Scope := EmptyString |}).
  destruct (checkAndRefreshToken E st) as [x [c1 log1]] eqn:Hc.
  pose proof (check_outcome st x c1 log1 Hc) as Hpre. cbv zeta in Hpre.
  assert (Hpre' :
    exists pre, log1 = (sent st ++ pre)%list /\
    ((c1 = this st /\ pre = []) \/
     (isEmpty (ClientWithRefresh.refreshToken (this st)) = false /\
      exists tr0,
        (c1 = this st \/
         ((isEmpty (AccessToken tr0) = false /\ issued E tr0) /\
          c1 = afterRefresh (this st) tr0)) /\
        pre = [refreshRequest (ClientWithRefresh.refreshToken (this st))
                              (ClientWithRefresh.tenantID (this st))]))).
  { destruct Hpre as [[-> ->]|[(Hrt & _ & -> & ->)|(Hrt & _ & tr & Hat & -> & ->)]].
    - exists []. rewrite app_nil_r. auto.
    - eexists. split; [reflexivity|]. right. split; [exact Hrt|].
      exists dummy. auto.
    - eexists. split; [reflexivity|]. right. split; [exact Hrt|].
      exists tr. auto. }
  destruct Hpre' as (pre & -> & Hpre').
  exists c1.
  destruct x as [e|].
  - rewrite (call_check_failed E op _ _ _ Hc). cbn [snd].
    exists c1, pre, []. rewrite app_nil_r. auto.
  - rewrite (call_passed op _ _ _ Hc).
    destruct (primaryRequest E (ClientWithRefresh.Client c1) op) as [req|] eqn:Hreq.
    + destruct (answered401 op (http_Do E (sent st ++ pre) req)).
      * destruct (primaryRequest_inv E _ _ _ Hreq) as [_ [body Hreq']].
        pose proof (on401_outcome (endpoint op) (method op) (ReqBody req)
                      (resultOf op) c1 ((sent st ++ pre) ++ [req])%list) as H401.
        cbv zeta in H401.
        destruct (refreshTokenOn401 E _ _ _ _ _) as [res [c2 log2]].
        cbn [snd this sent] in H401 |- *.
        destruct H401 as [[-> ->]|[(Hrt & -> & ->)|(Hrt & tr & Hat & -> & Hlog)]].
        -- exists c1, pre, [req]. rewrite <- app_assoc. split; [reflexivity|].
           split; [exact Hpre'|]. right. exists req. auto.
        -- eexists c1, pre, [req; _]. split.
           { rewrite <- !app_assoc. reflexivity. }
           split; [exact Hpre'|]. right. exists req. split; [reflexivity|].
           right. split; [exact Hrt|]. exists dummy. auto.
        -- destruct Hlog as [-> | ->].
           ++ eexists (afterRefresh c1 tr), pre, [req; _]. split.
              { rewrite <- !app_assoc. reflexivity. }
              split; [exact Hpre'|]. right. exists req. split; [reflexivity|].
              right. split; [exact Hrt|]. exists tr. auto.
           ++ eexists (afterRefresh c1 tr), pre, [req; _; _]. split.
              { rewrite <- !app_assoc. reflexivity. }
              split; [exact Hpre'|]. right. exists req. split; [reflexivity|].
              right. split; [exact Hrt|]. exists tr. split; [auto|].
              right. split; [exact (proj2 Hat)|].
              split; [reflexivity|]. rewrite Hreq'. reflexivity.
      * cbn [snd]. exists c1, pre, [req]. rewrite <- app_assoc.
        split; [reflexivity|]. split; [exact Hpre'|]. right. exists req. auto.
    + cbn [snd]. exists c1, pre, []. rewrite app_nil_r. auto.
Qed.

Lemma primaryRequest_body (c : Client.t) (op : Op) (req : Request) :
  primaryRequest E c op = Some req ->
  requestBody E op = Some (ReqBody req).
Proof.
  rewrite primaryRequest_requestable.
  destruct (requestBody E op) as [body|]; [|discriminate].
  destruct (requestable E _); [|discriminate].
  intros [= <-]. reflexivity.
Qed.

(** What a successful refresh keeps of the receiver. *)
Lemma afterRefresh_keeps (c : ClientWithRefresh.t) (tr : TokenResponse) :
  isEmpty (AccessToken tr) = false ->
  Client.baseURL (ClientWithRefresh.Client (afterRefresh c tr)) =
    Client.baseURL (ClientWithRefresh.Client c) /\
  ClientWithRefresh.tenantID (afterRefresh c tr) = ClientWithRefresh.tenantID c /\
  (isEmpty (ClientWithRefresh.refreshToken c) = false ->
   isEmpty (ClientWithRefresh.refreshToken (afterRefresh c tr)) = false) /\
  isEmpty (Client.accessToken (ClientWithRefresh.Client (afterRefresh c tr))) = false.
Proof.
  intros Hat. unfold afterRefresh. cbn.
  repeat split; auto.
  destruct (isEmpty (RefreshToken tr)) eqn:Hr; auto.
Qed.

(** X12. With an access token that parses as neither expired nor expiring
    soon, a call that is not answered 401 is the call of the plain client:
    same result, same traffic, receiver unchanged, and no refresh even when
    a refresh token is configured. *)
Theorem fresh_token_call_is_plain_call (op : Op) (st : State)
    (info : token.TokenInfo) :
  token.ParseToken (jwt_ParseUnverified E) (time_Now E (sent st))
    (Client.accessToken (ClientWithRefresh.Client (this st))) = inr info ->
  token.IsExpired info = false ->
  token.ExpiresSoon info = false ->
  (forall req status body,
     primaryRequest E (ClientWithRefresh.Client (this st)) op = Some req ->
     http_Do E (sent st) req = Response status body ->
     status <> 401) ->
  call E op st =
    (fst (callPlain E (ClientWithRefresh.Client (this st)) op (sent st)),
     {| this := this st;
        sent := snd (callPlain E (ClientWithRefresh.Client (this st)) op (sent st)) |}).
Proof.
  destruct st as [c log]. cbn [this sent]. intros Hparse Hexp Hsoon Hno401.
  assert (Hc : checkAndRefreshToken E {| this := c; sent := log |} =
               (None, {| this := c; sent := log |})).
  { rewrite checkAndRefreshToken_eq. cbv zeta. rewrite Hparse, Hexp, Hsoon.
    reflexivity. }
  rewrite (call_passed op _ _ _ Hc), (callPlain_traffic E).
  destruct (primaryRequest E (ClientWithRefresh.Client c) op) as [req|] eqn:Hreq;
    [|reflexivity].
  unfold answered401.
  destruct (http_Do E log req) as [|status body] eqn:Hdo; [reflexivity|].
  specialize (Hno401 req status body eq_refl Hdo).
  destruct (Z.eqb_spec status 401); [contradiction|reflexivity].
Qed.

(** X13. With a refresh token and an access token that does not parse, is
    expired or expires soon, a successful refresh comes first: the traffic
    of the call starts with the refresh request, followed by the request of
    the call under the newly issued access token, and nothing follows unless
    that request is answered 401. *)
Theorem stale_token_refreshed_before_request (op : Op) (st : State)
    (tr : TokenResponse) (log' : list Request) (req : Request) :
  needsRefresh E st = true ->
  refreshToken E (ClientWithRefresh.refreshToken (this st))
    (ClientWithRefresh.tenantID (this st)) (sent st) = (inr tr, log') ->
  primaryRequest E (ClientWithRefresh.Client (afterRefresh (this st) tr)) op =
    Some req ->
  Authorization req = Some ("Bearer " +:+ AccessToken tr) /\
  exists rest,
    sent (snd (call E op st)) =
      (sent st ++ refreshRequest (ClientWithRefresh.refreshToken (this st))
                    (ClientWithRefresh.tenantID (this st)) :: req :: rest)%list /\
    (answered401 op (http_Do E log' req) = false -> rest = []).
Proof.
  destruct st as [c log]. cbn [this sent]. intros Hneeds Hrefresh Hreq.
  destruct (refreshToken_ok_inv E _ _ _ _ _ Hrefresh) as (Hrt & -> & _).
  assert (Hc : checkAndRefreshToken E {| this := c; sent := log |} =
               (None, {| this := afterRefresh c tr;
                         sent := (log ++ [refreshRequest
                                   (ClientWithRefresh.refreshToken c)
                                   (ClientWithRefresh.tenantID c)])%list |})).
  { rewrite checkAndRefreshToken_eq. cbv zeta.
    unfold needsRefresh in Hneeds. cbn [this sent] in Hneeds.
    rewrite Hrt, Hrefresh.
    destruct (token.ParseToken _ _ _) as [err|info]; [reflexivity|].
    destruct (token.IsExpired info), (token.ExpiresSoon info);
      try discriminate; reflexivity. }
  split.
  - destruct (primaryRequest_inv E _ _ _ Hreq) as [_ [body ->]]. reflexivity.
  - rewrite (call_passed op _ _ _ Hc), Hreq.
    destruct (answered401 op (http_Do E _ req)).
    + pose proof (refreshTokenOn401_traffic E (endpoint op) (method op)
                    (ReqBody req) (resultOf op)
                    {| this := afterRefresh c tr;
                       sent := ((log ++ [refreshRequest
                                   (ClientWithRefresh.refreshToken c)
                                   (ClientWithRefresh.tenantID c)]) ++ [req])%list |})
        as Ht.
      cbv zeta in Ht. cbn [sent this] in Ht.
      destruct Ht as [-> | [rest ->]].
      * exists []. rewrite <- app_assoc. split; [reflexivity|discriminate].
      * eexists. rewrite <- !app_assoc. split; [reflexivity|discriminate].
    + exists []. cbn [snd sent]. rewrite <- app_assoc. split; reflexivity.
Qed.

(** X14. An access token that does not parse, with no refresh token, fails
    every call at once with the inspection error inside, and nothing is
    sent. *)
Theorem unparsable_token_without_refresh_token_fails_offline
    (op : Op) (st : State) (e : error) :
  isEmpty (ClientWithRefresh.refreshToken (this st)) = true ->
  token.ParseToken (jwt_ParseUnverified E) (time_Now E (sent st))
    (Client.accessToken (ClientWithRefresh.Client (this st))) = inl e ->
  call E op st = (Err (ErrTokenCheck (ErrUnparsableNoRefresh e)), st).
Proof.
  destruct st as [c log]. cbn [this sent]. intros Hrt Hparse.
  apply call_check_failed. rewrite checkAndRefreshToken_eq. cbv zeta.
  rewrite Hparse, Hrt. reflexivity.
Qed.

(** X15. A call never sends more than four requests (a pre-flight refresh,
    the request, a refresh after a 401 and one retry), it only appends to
    the traffic, and without a refresh token it sends at most one. *)
Theorem call_sends_at_most_four_requests (op : Op) (st : State) :
  exists new : list Request,
    sent (snd (call E op st)) = (sent st ++ new)%list /\
    (length new <= 4)%nat /\
    (isEmpty (ClientWithRefresh.refreshToken (this st)) = true ->
     (length new <= 1)%nat).
Proof.
  destruct (call_outcome op st) as (c1 & c2 & pre & main & -> & Hpre & Hmain).
  exists (pre ++ main)%list. cbn [snd sent]. split; [reflexivity|].
  rewrite length_app.
  assert (Hp : (length pre <= 1)%nat).
  { destruct Hpre as [[_ ->]|(_ & tr0 & _ & ->)]; cbn; lia. }
  assert (Hm : (length main <= 3)%nat).
  { destruct Hmain as [[_ ->]|(req & _ & [[_ ->]|(_ & tr1 & _ & [->|(_ & _ & ->)])])];
      cbn; lia. }
  split; [lia|].
  intros Hrt.
  destruct Hpre as [[-> ->]|(Hrt' & _)]; [|congruence].
  destruct Hmain as [[_ ->]|(req & _ & [[_ ->]|(Hrt' & _)])];
    cbn; try lia; congruence.
Qed.

(** X16. Every request a call sends is of one of two kinds. A refresh
    request is a POST to the token endpoint of the receiver's tenant, without
    Authorization header, whose form carries a refresh token of the
    receiver: the one it held at the start of the call or the one of a
    response the refresher has returned. A request to the API has the
    method, the address and the body of the call, and as bearer token an
    access token of the receiver: the one it held at the start of the call
    or the one of a response the refresher has returned. *)
Theorem call_requests_are_of_two_kinds (op : Op) (st : State) :
  exists new : list Request,
    sent (snd (call E op st)) = (sent st ++ new)%list /\
    Forall (fun r =>
      (exists rt,
         r = {| Method := "POST";
                URL := tokenURL (ClientWithRefresh.tenantID (this st));
                Authorization := None;
                ContentType := Some "application/x-www-form-urlencoded";
                ReqBody := Form [("grant_type", "refresh_token");
                                 ("refresh_token", rt);
                                 ("scope", "https://graph.microsoft.com/.default")] |} /\
         (rt = ClientWithRefresh.refreshToken (this st) \/
          exists tr, issued E tr /\ rt = RefreshToken tr)) \/
      (Method r = method op /\
       URL r = Client.baseURL (ClientWithRefresh.Client (this st)) +:+ endpoint op /\
       requestBody E op = Some (ReqBody r) /\
       ContentType r = Some "application/json" /\
       exists accessToken,
         Authorization r = Some ("Bearer " +:+ accessToken) /\
         (accessToken = Client.accessToken (ClientWithRefresh.Client (this st)) \/
          exists tr, issued E tr /\ accessToken = AccessToken tr)))
      new.
Proof.
  destruct (call_outcome op st) as (c1 & c2 & pre & main & -> & Hpre & Hmain).
  exists (pre ++ main)%list. cbn [snd sent]. split; [reflexivity|].
  assert (Hc1 :
    Client.baseURL (ClientWithRefresh.Client c1) =
      Client.baseURL (ClientWithRefresh.Client (this st)) /\
    ClientWithRefresh.tenantID c1 = ClientWithRefresh.tenantID (this st) /\
    (ClientWithRefresh.refreshToken c1 = ClientWithRefresh.refreshToken (this st) \/
     exists tr, issued E tr /\ ClientWithRefresh.refreshToken c1 = RefreshToken tr) /\
    (Client.accessToken (ClientWithRefresh.Client c1) =
       Client.accessToken (ClientWithRefresh.Client (this st)) \/
     exists tr, issued E tr /\
                Client.accessToken (ClientWithRefresh.Client c1) = AccessToken tr)).
  { destruct Hpre as [[-> _]|(_ & tr0 & [->|[[_ Hiss] ->]] & _)];
      try (repeat split; auto; fail).
    unfold afterRefresh. cbn. repeat split.
    - destruct (isEmpty (RefreshToken tr0)); [left; reflexivity|].
      right. exists tr0. auto.
    - right. exists tr0. auto. }
  destruct Hc1 as (Hbase & Htenant & Hrt1 & Hat1).
  apply Forall_app. split.
  - destruct Hpre as [[_ ->]|(_ & tr0 & _ & ->)]; [constructor|].
    constructor; [|constructor]. left. eexists. split; [reflexivity|].
    left. reflexivity.
  - assert (Hreq : forall req,
      primaryRequest E (ClientWithRefresh.Client c1) op = Some req ->
      Method req = method op /\
      URL req = Client.baseURL (ClientWithRefresh.Client (this st)) +:+ endpoint op /\
      requestBody E op = Some (ReqBody req) /\
      ContentType req = Some "application/json" /\
      exists accessToken,
        Authorization req = Some ("Bearer " +:+ accessToken) /\
        (accessToken = Client.accessToken (ClientWithRefresh.Client (this st)) \/
         exists tr, issued E tr /\ accessToken = AccessToken tr)).
    { intros req Hreq. pose proof (primaryRequest_body _ _ _ Hreq) as Hb.
      destruct (primaryRequest_inv E _ _ _ Hreq) as [_ [body ->]].
      cbn [Method URL ReqBody ContentType Authorization] in *.
      rewrite Hbase. repeat split; auto. eexists. split; [reflexivity|].
      exact Hat1. }
    assert (Hrefresh :
      exists rt,
        refreshRequest (ClientWithRefresh.refreshToken c1)
          (ClientWithRefresh.tenantID c1) =
        {| Method := "POST";
           URL := tokenURL (ClientWithRefresh.tenantID (this st));
           Authorization := None;
           ContentType := Some "application/x-www-form-urlencoded";
           ReqBody := Form [("grant_type", "refresh_token");
                            ("refresh_token", rt);
                            ("scope", "https://graph.microsoft.com/.default")] |} /\
        (rt = ClientWithRefresh.refreshToken (this st) \/
         exists tr, issued E tr /\ rt = RefreshToken tr)).
    { exists (ClientWithRefresh.refreshToken c1). split; [|exact Hrt1].
      unfold refreshRequest. rewrite Htenant. reflexivity. }
    destruct Hmain as [[_ ->]|(req & Hp & Hcases)]; [constructor|].
    specialize (Hreq req Hp).
    destruct Hcases as [[_ ->]|(_ & tr1 & _ & [->|(Hiss & _ & ->)])].
    + constructor; [|constructor]. right. exact Hreq.
    + constructor; [right; exact Hreq|].
      constructor; [|constructor]. left. exact Hrefresh.
    + constructor; [right; exact Hreq|].
      constructor; [left; exact Hrefresh|].
      constructor; [|constructor].
      right. unfold withBearer. cbn [Method URL ReqBody ContentType Authorization].
      destruct Hreq as (Hm & Hu & Hb & Hct & _).
      repeat split; auto. eexists. split; [reflexivity|].
      right. exists tr1. auto.
Qed.

(** X17. A call never changes the base URL or the tenant identifier; without
    a refresh token it leaves the receiver as it is; a configured refresh
    token is never cleared; and a non-empty access token is only ever
    replaced by a non-empty one. *)
Theorem call_preserves_configuration (op : Op) (st : State) :
  let c := this st in
  let c' := this (snd (call E op st)) in
  Client.baseURL (ClientWithRefresh.Client c') =
    Client.baseURL (ClientWithRefresh.Client c) /\
  ClientWithRefresh.tenantID c' = ClientWithRefresh.tenantID c /\
  (isEmpty (ClientWithRefresh.refreshToken c) = true -> c' = c) /\
  (isEmpty (ClientWithRefresh.refreshToken c) = false ->
   isEmpty (ClientWithRefresh.refreshToken c') = false) /\
  (isEmpty (Client.accessToken (ClientWithRefresh.Client c)) = false ->
   isEmpty (Client.accessToken (ClientWithRefresh.Client c')) = false).
Proof.
  cbv zeta.
  destruct (call_outcome op st) as (c1 & c2 & pre & main & -> & Hpre & Hmain).
  cbn [snd this].
  assert (H1 :
    Client.baseURL (ClientWithRefresh.Client c1) =
      Client.baseURL (ClientWithRefresh.Client (this st)) /\
    ClientWithRefresh.tenantID c1 = ClientWithRefresh.tenantID (this st) /\
    (isEmpty (ClientWithRefresh.refreshToken (this st)) = true -> c1 = this st) /\
    (isEmpty (ClientWithRefresh.refreshToken (this st)) = false ->
     isEmpty (ClientWithRefresh.refreshToken c1) = false) /\
    (isEmpty (Client.accessToken (ClientWithRefresh.Client (this st))) = false ->
     isEmpty (Client.accessToken (ClientWithRefresh.Client c1)) = false)).
  { destruct Hpre as [[-> _]|(Hrt & tr0 & [->|[Hat ->]] & _)];
      try (repeat split; auto; fail).
    destruct (afterRefresh_keeps (this st) tr0 (proj1 Hat)) as (Hb & Ht & Hr & Ha).
    repeat split; auto. congruence. }
  assert (H2 :
    Client.baseURL (ClientWithRefresh.Client c2) =
      Client.baseURL (ClientWithRefresh.Client c1) /\
    ClientWithRefresh.tenantID c2 = ClientWithRefresh.tenantID c1 /\
    (isEmpty (ClientWithRefresh.refreshToken c1) = true -> c2 = c1) /\
    (isEmpty (ClientWithRefresh.refreshToken c1) = false ->
     isEmpty (ClientWithRefresh.refreshToken c2) = false) /\
    (isEmpty (Client.accessToken (ClientWithRefresh.Client c1)) = false ->
     isEmpty (Client.accessToken (ClientWithRefresh.Client c2)) = false)).
  { destruct Hmain as [[-> _]|(req & _ & [[-> _]|(Hrt & tr1 & [->|[Hat ->]] & _)])];
      try (repeat split; auto; fail).
    destruct (afterRefresh_keeps c1 tr1 (proj1 Hat)) as (Hb & Ht & Hr & Ha).
    repeat split; auto. congruence. }
  destruct H1 as (Hb1 & Ht1 & He1 & Hr1 & Ha1).
  destruct H2 as (Hb2 & Ht2 & He2 & Hr2 & Ha2).
  repeat split.
  - congruence.
  - congruence.
  - intros Hrt. specialize (He1 Hrt). subst c1. auto.
  - auto.
  - auto.
Qed.

(** X18. After a 401 and a successful refresh, a 2xx answer to the retry is
    decoded exactly when a result is supplied and the body is non-empty, and
    is a success without decoding otherwise; this holds for the retry of
    every verb, Get included. *)
Theorem retry_decodes_when_wanted (ep m : string) (body : Body)
    (result : option Target) (c : ClientWithRefresh.t) (log log' : list Request)
    (tr : TokenResponse) (req : Request) (status : Z) (respBody : string) :
  isEmpty (ClientWithRefresh.refreshToken c) = false ->
  refreshToken E (ClientWithRefresh.refreshToken c)
    (ClientWithRefresh.tenantID c) log = (inr tr, log') ->
  newAPIRequest E m (Client.baseURL (ClientWithRefresh.Client c)) ep body
    (AccessToken tr) = Some req ->
  http_Do E log' req = Response status (Some respBody) ->
  non2xx status = false ->
  refreshTokenOn401 E ep m body result {| this := c; sent := log |} =
    (match result with
     | Some target =>
         if isEmpty respBody then Ok None
         else match json_Unmarshal_into E target respBody with
              | Some v => Ok (Some v)
              | None => Err ErrUnmarshalRetry
              end
     | None => Ok None
     end, {| this := afterRefresh c tr; sent := (log' ++ [req])%list |}).
Proof.
  intros Hrt Hrefresh Hreq Hdo H2xx.
  rewrite refreshTokenOn401_eq, Hrt, Hrefresh. cbv zeta.
  rewrite Hreq, Hdo, H2xx, length_positive.
  destruct result as [target|]; cbn [notNil andb]; [|reflexivity].
  destruct respBody as [|a b]; [reflexivity|].
  cbn [isEmpty String.eqb negb json_Unmarshal]. reflexivity.
Qed.

End RefreshAwareCalls.

(* ===================================================================== *)
(** ** Properties of package profile and of the command-line program      *)
(* ===================================================================== *)

Section Profile.

Import graph spec.

Variable E : Env.

(** The two functions succeed only through a successful Get. *)
Lemma profile_Get_ok (c : Client.t) (ep : string) (log log' : list Request)
    (u : option Go.Value) :
  Client_Get E c ep (Some profile.User) log = (Ok u, log') <->
  exists req status body v,
    primaryRequest E c (OpGet ep (Some profile.User)) = Some req /\
    log' = (log ++ [req])%list /\
    http_Do E log req = Response status (Some body) /\
    non2xx status = false /\
    isEmpty body = false /\
    json_Unmarshal_into E profile.User body = Some v /\
    u = Some v.
Proof.
  change (Client_Get E c ep (Some profile.User) log)
    with (callPlain E c (OpGet ep (Some profile.User)) log).
  rewrite callPlain_eq. cbn [isDelete]. split.
  - destruct (primaryRequest E c _) as [req|]; [|discriminate].
    destruct (http_Do E log req) as [|status [body|]] eqn:Hdo; try discriminate.
    destruct (non2xx status) eqn:H2xx; [discriminate|].
    unfold json_Unmarshal. destruct body as [|a body']; [discriminate|].
    destruct (json_Unmarshal_into E profile.User (String a body')) as [v|] eqn:Hdec;
      [|discriminate].
    intros [= <- <-]. exists req, status, (String a body'), v.
    repeat split; assumption.
  - intros (req & status & body & v & -> & -> & -> & -> & Hne & Hdec & ->).
    unfold json_Unmarshal. destruct body as [|a body']; [discriminate|].
    rewrite Hdec. reflexivity.
Qed.

(** X19. [GetUserProfile] refuses an empty user identifier without sending
    anything. It returns a user exactly when the identifier is non-empty and
    [GET /users/{id}] is answered 2xx with a non-empty body that decodes as a
    user; the returned user is then the decoded one, never an empty one. *)
Theorem GetUserProfile_contract (c : Client.t) (userID : string)
    (log : list Request) :
  (isEmpty userID = true ->
   profile.GetUserProfile E c userID log = (inl profile.ErrUserIDEmpty, log)) /\
  (forall u log',
     profile.GetUserProfile E c userID log = (inr u, log') <->
     isEmpty userID = false /\
     exists req status body v,
       primaryRequest E c (OpGet ("/users/" +:+ userID) (Some profile.User)) =
         Some req /\
       log' = (log ++ [req])%list /\
       http_Do E log req = Response status (Some body) /\
       non2xx status = false /\
       isEmpty body = false /\
       json_Unmarshal_into E profile.User body = Some v /\
       u = Some v).
Proof.
  unfold profile.GetUserProfile. split.
  - intros ->. reflexivity.
  - intros u log'. destruct (isEmpty userID).
    + split; [discriminate|intros [H _]; discriminate].
    + unfold bind, ret.
      rewrite <- profile_Get_ok.
      destruct (Client_Get E c _ _ log) as [[r|e] l].
      * split; [intros [= <- <-]; auto|intros [_ [= <- <-]]; reflexivity].
      * split; [discriminate|intros [_ H]; discriminate].
Qed.

(** X20. [GetMyProfile] returns a user exactly when [GET /me] is answered
    2xx with a non-empty body that decodes as a user, and then returns the
    decoded user; in every other case it returns the error of Get wrapped
    as its own. *)
Theorem GetMyProfile_contract (c : Client.t) (log : list Request) :
  (forall u log',
     profile.GetMyProfile E c log = (inr u, log') <->
     exists req status body v,
       primaryRequest E c (OpGet "/me" (Some profile.User)) = Some req /\
       log' = (log ++ [req])%list /\
       http_Do E log req = Response status (Some body) /\
       non2xx status = false /\
       isEmpty body = false /\
       json_Unmarshal_into E profile.User body = Some v /\
       u = Some v) /\
  (forall f log',
     profile.GetMyProfile E c log = (inl f, log') ->
     exists e, f = profile.ErrGetMyProfile e /\
               Client_Get E c "/me" (Some profile.User) log = (Err e, log')).
Proof.
  unfold profile.GetMyProfile, bind, ret. split.
  - intros u log'. rewrite <- profile_Get_ok.
    destruct (Client_Get E c _ _ log) as [[r|e] l].
    + split; intros [= <- <-]; reflexivity.
    + split; discriminate.
  - intros f log'. destruct (Client_Get E c _ _ log) as [[r|e] l];
      [discriminate|]. intros [= <- <-]. exists e. auto.
Qed.

(** X21. The command-line program exits with status 1 and sends nothing
    when MS_GRAPH_ACCESS_TOKEN is empty. Otherwise its traffic and its exit
    status are those of one [GET /me] by a plain client under that access
    token: it sends at most that one request and never refreshes, whatever
    MS_GRAPH_REFRESH_TOKEN and MS_GRAPH_TENANT_ID hold, and it exits with
    status 0 exactly when Get succeeds. *)
Theorem main_is_one_plain_Get (getenv : string -> string) (log : list Request) :
  (isEmpty (getenv "MS_GRAPH_ACCESS_TOKEN") = true ->
   cmd.main E getenv log = (1, log)) /\
  (isEmpty (getenv "MS_GRAPH_ACCESS_TOKEN") = false ->
   cmd.main E getenv log =
     (match fst (Client_Get E (NewClient (getenv "MS_GRAPH_ACCESS_TOKEN"))
                   "/me" (Some profile.User) log) with
      | Ok _ => 0
      | Err _ => 1
      end,
      match primaryRequest E (NewClient (getenv "MS_GRAPH_ACCESS_TOKEN"))
              (OpGet "/me" (Some profile.User)) with
      | Some req => (log ++ [req])%list
      | None => log
      end)).
Proof.
  unfold cmd.main. split; intros Hat; rewrite Hat; [reflexivity|].
  cbv zeta.
  assert (Hclient :
    (if negb (isEmpty (getenv "MS_GRAPH_REFRESH_TOKEN"))
     then ClientWithRefresh.Client
            (NewClientWithRefresh (getenv "MS_GRAPH_ACCESS_TOKEN")
               (getenv "MS_GRAPH_REFRESH_TOKEN") (getenv "MS_GRAPH_TENANT_ID"))
     else NewClient (getenv "MS_GRAPH_ACCESS_TOKEN")) =
    NewClient (getenv "MS_GRAPH_ACCESS_TOKEN"))
    by (destruct (negb _); reflexivity).
  rewrite Hclient. unfold profile.GetMyProfile, bind, ret.
  pose proof (callPlain_traffic E (NewClient (getenv "MS_GRAPH_ACCESS_TOKEN"))
                (OpGet "/me" (Some profile.User)) log) as Ht.
  cbn [callPlain] in Ht.
  destruct (Client_Get E _ _ _ log) as [[r|e] l]; cbn [fst snd] in *;
    rewrite Ht; reflexivity.
Qed.

End Profile.

(* ===================================================================== *)
(** ** The reaction to a 401                                              *)
(* ===================================================================== *)

Section ReactiveRefresh.

Import graph spec.

Variable E : Env.

(** C3 (amended). When the first attempt of a call is answered 401:
    Get, Post and Patch read the body before they look at the status, so
    when the body cannot be read they return the read error, with no refresh
    and no retry. Otherwise (Delete, or a body that was read): with no
    refresh token the call ends at once with the 401 error, without refresh
    and without retry; with a refresh token one refresh is attempted after
    the 401; if it fails, its error is returned and there is no retry; if it
    succeeds, the original request is sent exactly once more, under the
    newly issued access token, and whatever the answer to the retry, the
    call ends there: an answer outside 2xx, 401 included, is returned as an
    error and no third attempt is made. *)
Theorem reactive_refresh_on_401
    (op : Op) (st : State) (c : ClientWithRefresh.t) (log : list Request)
    (req : Request) (body : option string) :
  checkAndRefreshToken E st = (None, {| this := c; sent := log |}) ->
  primaryRequest E (ClientWithRefresh.Client c) op = Some req ->
  http_Do E log req = Response 401 body ->
  (isDelete op = false -> body = None ->
     call E op st =
       (Err ErrReadBody, {| this := c; sent := (log ++ [req])%list |})) /\
  (isDelete op = true \/ body <> None ->
     (isEmpty (ClientWithRefresh.refreshToken c) = true ->
        call E op st =
          (Err Err401NoRefresh, {| this := c; sent := (log ++ [req])%list |})) /\
     (isEmpty (ClientWithRefresh.refreshToken c) = false ->
        let refresh := refreshRequest (ClientWithRefresh.refreshToken c)
                                      (ClientWithRefresh.tenantID c) in
        match refreshToken E (ClientWithRefresh.refreshToken c)
                (ClientWithRefresh.tenantID c) (log ++ [req])%list with
        | (inl e, log2) =>
            call E op st =
              (Err (Err401RefreshFailed e), {| this := c; sent := log2 |}) /\
            (log2 = (log ++ [req])%list \/ log2 = (log ++ [req; refresh])%list)
        | (inr tr, log2) =>
            let retry := withBearer req (AccessToken tr) in
            log2 = (log ++ [req; refresh])%list /\
            exists r,
              call E op st =
                (r, {| this := afterRefresh c tr;
                       sent := (log ++ [req; refresh; retry])%list |}) /\
              forall status body',
                http_Do E log2 retry = Response status body' ->
                non2xx status = true ->
                exists e, r = Err e
        end)).
Proof.
  intros Hc Hreq Hdo.
  pose proof (call_passed E op _ _ _ Hc) as H.
  rewrite Hreq, Hdo in H. unfold answered401 in H.
  cbn [Z.eqb Pos.eqb andb] in H.
  split.
  - intros Hdel ->. rewrite Hdel in H. cbn [orb notNil] in H.
    rewrite H, callPlain_eq, Hreq, Hdo, Hdel. reflexivity.
  - intros Hread.
    assert (Hans : isDelete op || notNil body = true).
    { destruct Hread as [-> | Hb]; [reflexivity|].
      destruct body; [apply orb_true_r|contradiction]. }
    rewrite Hans in H. clear Hans Hread.
    rewrite refreshTokenOn401_eq in H.
    split; intros Hrt; rewrite Hrt in H; [exact H|].
    cbv zeta.
    pose proof (refreshToken_traffic E (ClientWithRefresh.refreshToken c)
                  (ClientWithRefresh.tenantID c) (log ++ [req])%list) as Ht.
    rewrite Hrt in Ht.
    destruct (refreshToken E _ _ (log ++ [req])%list) as [[e|tr] log2] eqn:Hrefresh;
      cbn [snd] in Ht.
    + split; [exact H|].
      destruct (requestable E _); rewrite Ht; [right|left]; [|reflexivity].
      rewrite <- app_assoc. reflexivity.
    + destruct (refreshToken_ok_inv E _ _ _ _ _ Hrefresh) as (_ & Hlog2 & _).
      assert (Hlog2' : log2 = (log ++ [req; refreshRequest
                                  (ClientWithRefresh.refreshToken c)
                                  (ClientWithRefresh.tenantID c)])%list)
        by (rewrite Hlog2, <- app_assoc; reflexivity).
      split; [exact Hlog2'|].
      destruct (primaryRequest_inv E _ _ _ Hreq) as [Hable [b Hreq']].
      rewrite newAPIRequest_requestable, Hable in H. cbv zeta in H.
      assert (Hretry :
        {| Method := method op;
           URL := Client.baseURL (ClientWithRefresh.Client c) +:+ endpoint op;
           Authorization := Some ("Bearer " +:+ AccessToken tr);
           ContentType := Some "application/json";
           ReqBody := ReqBody req |} = withBearer req (AccessToken tr))
        by (rewrite Hreq'; reflexivity).
      rewrite Hretry in H.
      eexists. split.
      * rewrite H. f_equal. f_equal. rewrite Hlog2', <- app_assoc. reflexivity.
      * intros status rbody Hdo' Hnon. rewrite Hdo'.
        destruct rbody as [rb|]; [|eexists; reflexivity].
        rewrite Hnon.
        destruct (json_Unmarshal_ErrorResponse E rb); eexists; reflexivity.
Qed.

End ReactiveRefresh.

(* ===================================================================== *)
(** ** The theorems at concrete inputs                                    *)
(* ===================================================================== *)

Section Instances.

Import graph spec scenario.

(** At 1500 s, a token that expires at 2000 s is neither expired nor
    expiring soon. *)
Lemma ParseToken_expiry_state_witness :
  exists info,
    token.ParseToken parser (1500 * time.Second) "h.t2000.s" = inr info /\
    token.ExpiresAt info = 2000 * 1000000000 /\
    (1500 * time.Second <= 2000 * 1000000000 ->
       token.IsExpired info = false /\
       (token.ExpiresSoon info = true <->
          2000 * 1000000000 - 1500 * time.Second < 600 * 1000000000)) /\
    (2000 * 1000000000 < 1500 * time.Second ->
       token.IsExpired info = true /\ token.ExpiresSoon info = false /\
       token.TimeUntilExp info < 0).
Proof.
  apply (ParseToken_expiry_state parser (1500 * time.Second) "h.t2000.s"
           {[ "exp" := Go.VFloat64 f2000 ]} (Go.VFloat64 f2000) 2000);
    try (vm_compute; reflexivity).
  unfold Go.MinInt64, Go.MaxInt64. lia.
Defined.

(** C4 as stated fails on a fractional claim: the token's "exp" is 1000.5 s,
    the clock reads 1000.2 s, so the claim lies 0.3 s after the current
    time, and inspection reports the token expired. *)
Lemma fractional_exp_reported_expired :
  Go.is_float64 f1000_5 = true /\
  Qeq (Go.float64_Q f1000_5) (Qmake 2001 2) /\
  Qlt (Qmake 1000200000000 1000000000) (Go.float64_Q f1000_5) /\
  token.ParseToken parser 1000200000000 "h.frac.s" =
    inr {| token.ExpiresAt := 1000000000000;
           token.IsExpired := true;
           token.TimeUntilExp := -200000000;
           token.ExpiresSoon := false |}.
Proof. repeat split; vm_compute; reflexivity. Qed.

Lemma ParseToken_error_classes_witness :
  token.ParseToken parser early "h.noexp.s" = inl ErrNoExpClaim /\
  token.ParseToken parser early "h.strexp.s" = inl ErrExpClaimType /\
  exists e, token.ParseToken parser early "not a token" = inl e /\ DecodeError e.
Proof.
  split; [|split].
  - exact (proj2 (ParseToken_error_classes parser early "h.noexp.s")
             {[ "sub" := Go.VString "alice" ]} eq_refl).
  - exact (proj2 (ParseToken_error_classes parser early "h.strexp.s")
             {[ "exp" := Go.VString "tomorrow" ]} eq_refl).
  - apply (proj1 (ParseToken_error_classes parser early "not a token")).
    intros claims. vm_compute. discriminate.
Defined.

Lemma refreshToken_contract_witness :
  refreshToken (env_up early) EmptyString "contoso" [] =
    (inl ErrRefreshTokenRequired, []) /\
  exists r,
    refreshToken (env_up early) "rt" "contoso" [] =
      (r, [refreshRequest "rt" "contoso"]).
Proof.
  split.
  - apply (proj1 (refreshToken_contract (env_up early) EmptyString "contoso" [])).
    reflexivity.
  - destruct (proj2 (refreshToken_contract (env_up early) "rt" "contoso" [])
                eq_refl) as (_ & _ & _ & _ & _ & H).
    destruct (H eq_refl) as (r & Hr & _). exists r. exact Hr.
Defined.

(** C7 as stated fails when no request can be built for the tenant: with
    a non-empty refresh token and a tenant identifier that ends in a line
    feed, the refresher returns an error and sends no POST. *)
Lemma refreshToken_unbuildable_request_sends_nothing :
  isEmpty "rt" = false /\
  refreshToken (env_up early) "rt" ("contoso" +:+ newline) [] =
    (inl ErrCreateRequest, []).
Proof. split; vm_compute; reflexivity. Qed.

Lemma expired_token_without_refresh_token_fails_offline_witness :
  call (env_down late) (OpGet "/me" (Some "User"))
    (start "h.t2000.s" EmptyString EmptyString) =
  (Err (ErrTokenCheck ErrExpiredNoRefresh),
   start "h.t2000.s" EmptyString EmptyString).
Proof.
  eapply (expired_token_without_refresh_token_fails_offline (env_down late));
    vm_compute; reflexivity.
Defined.

Lemma unexpired_token_without_refresh_token_proceeds_witness :
  checkAndRefreshToken (env_up soon) (start "h.t2000.s" EmptyString EmptyString) =
    (None, start "h.t2000.s" EmptyString EmptyString).
Proof.
  eapply proj1.
  eapply (unexpired_token_without_refresh_token_proceeds (env_up soon)
            (OpGet "/me" (Some "User")));
    vm_compute; reflexivity.
Defined.

Lemma proactive_refresh_failure_is_returned_witness :
  call (env_down late) (OpGet "/me" (Some "User"))
    (start "h.t2000.s" "rt" EmptyString) =
  (Err (ErrTokenCheck (ErrRefreshFailed (ErrRefreshStatus 503 "down"))),
   {| this := this (start "h.t2000.s" "rt" EmptyString);
      sent := [refreshRequest "rt" EmptyString] |}).
Proof.
  eapply proj1.
  eapply (proactive_refresh_failure_is_returned (env_down late));
    vm_compute; reflexivity.
Defined.

(** C1 as stated fails: the access token expires in 300 s (expiring soon,
    not expired), the refresh token is non-empty and the token endpoint is
    down; the call returns the refresh failure and the request [GET /me]
    is never sent. *)
Lemma expiring_soon_refresh_failure_is_surfaced :
  token.ParseToken parser soon "h.t2000.s" =
    inr {| token.ExpiresAt := 2000 * time.Second;
           token.IsExpired := false;
           token.TimeUntilExp := 300 * time.Second;
           token.ExpiresSoon := true |} /\
  refreshToken (env_down soon) "rt" EmptyString [] =
    (inl (ErrRefreshStatus 503 "down"), [refreshRequest "rt" EmptyString]) /\
  call (env_down soon) (OpGet "/me" (Some "User"))
    (start "h.t2000.s" "rt" EmptyString) =
  (Err (ErrTokenCheck (ErrRefreshFailed (ErrRefreshStatus 503 "down"))),
   {| this := this (start "h.t2000.s" "rt" EmptyString);
      sent := [refreshRequest "rt" EmptyString] |}).
Proof. repeat split; vm_compute; reflexivity. Qed.

Lemma reactive_refresh_on_401_witness :
  call (env_down early) (OpGet "/me" (Some "User"))
    (start "h.t2000.s" EmptyString EmptyString) =
  (Err Err401NoRefresh,
   {| this := this (start "h.t2000.s" EmptyString EmptyString);
      sent := ([] ++ [getMe "h.t2000.s"])%list |}).
Proof.
  eapply (proj1 (proj2 (reactive_refresh_on_401 (env_down early)
                          (OpGet "/me" (Some "User"))
                          (start "h.t2000.s" EmptyString EmptyString)
                          (this (start "h.t2000.s" EmptyString EmptyString)) []
                          (getMe "h.t2000.s") (Some "{}") _ _ _) _)).
  vm_compute; reflexivity.
  Unshelve.
  - vm_compute; reflexivity.
  - vm_compute; reflexivity.
  - vm_compute; reflexivity.
  - right. discriminate.
Defined.

(** A 401 followed by a successful refresh: the traffic is the request,
    the refresh and one retry under the new access token, and the refresh
    token is rotated. *)
Lemma reactive_refresh_retries_once :
  call (env_401_once early) (OpGet "/me" (Some "User"))
    (start "h.t2000.s" "rt" EmptyString) =
  (Ok (Some (Go.VObject [])),
   {| this := NewClientWithRefresh "h.new.s" "rt2" EmptyString;
      sent := [getMe "h.t2000.s"; refreshRequest "rt" EmptyString;
               getMe "h.new.s"] |}).
Proof. vm_compute; reflexivity. Qed.

(** C3 as stated fails when the refresh after the 401 fails: a refresh
    token is configured, the first attempt is answered 401, the token
    endpoint answers 503; there is one refresh call and no retry. *)
Lemma failed_reactive_refresh_has_no_retry :
  isEmpty "rt" = false /\
  http_Do (env_down early) [] (getMe "h.t2000.s") = Response 401 (Some "{}") /\
  call (env_down early) (OpGet "/me" (Some "User"))
    (start "h.t2000.s" "rt" EmptyString) =
  (Err (Err401RefreshFailed (ErrRefreshStatus 503 "down")),
   {| this := this (start "h.t2000.s" "rt" EmptyString);
      sent := [getMe "h.t2000.s"; refreshRequest "rt" EmptyString] |}).
Proof. repeat split; vm_compute; reflexivity. Qed.

Lemma successful_refresh_replaces_tokens_witness :
  exists c' : ClientWithRefresh.t,
    Client.accessToken (ClientWithRefresh.Client c') = "h.new.s" /\
    ClientWithRefresh.refreshToken c' = "rt2" /\
    checkAndRefreshToken (env_up late) (start "h.t2000.s" "rt" EmptyString) =
      (None, {| this := c'; sent := [refreshRequest "rt" EmptyString] |}).
Proof.
  destruct (successful_refresh_replaces_tokens (env_up late)
              (start "h.t2000.s" "rt" EmptyString)
              {| AccessToken := "h.new.s"; TokenType := "Bearer";
                 ExpiresIn := 3600; RefreshToken := "rt2";
                 Scope := "https://graph.microsoft.com/.default" |}
              [refreshRequest "rt" EmptyString] eq_refl)
    as (c' & Hcheck & _ & Hat & Hrt & _).
  exists c'. split; [exact Hat|]. split; [exact Hrt|].
  apply Hcheck. vm_compute. reflexivity.
Defined.

(** C2's failing input: [GET /me] answered 204 with an empty body. *)
Lemma Client_Get_decodes_unconditionally_witness :
  Client_Get (env_up early) (NewClient "h.t2000.s") "/me" (Some "User") [] =
    (Err ErrUnmarshal, ([] ++ [getMe "h.t2000.s"])%list).
Proof.
  apply (Client_Get_decodes_unconditionally (env_up early)
           (NewClient "h.t2000.s") "/me" (Some "User") (getMe "h.t2000.s") []
           204 EmptyString);
    try (vm_compute; reflexivity).
  right. reflexivity.
Defined.

(** The same answer to a POST is a success that decodes nothing. *)
Lemma Client_Post_204_succeeds :
  Client_Post (env_up early) (NewClient "h.t2000.s") "/me" None (Some "User") [] =
    (Ok None,
     [{| Method := "POST";
         URL := "https://graph.microsoft.com/v1.0/me";
         Authorization := Some "Bearer h.t2000.s";
         ContentType := Some "application/json";
         ReqBody := Bytes EmptyString |}]).
Proof. vm_compute; reflexivity. Qed.

(** A control character after the number sign does not stop the request:
    for such a tenant the refresh request is built and sent, and the token
    returned. *)
Lemma refreshToken_control_character_in_fragment :
  refreshToken (env_up early) "rt" ("contoso#" +:+ newline) [] =
    (inr {| AccessToken := "h.new.s"; TokenType := "Bearer";
            ExpiresIn := 3600; RefreshToken := "rt2";
            Scope := "https://graph.microsoft.com/.default" |},
     [refreshRequest "rt" ("contoso#" +:+ newline)]).
Proof. vm_compute; reflexivity. Qed.

(** An "exp" claim within 62135596800 of the largest int64 wraps around in
    [time.Unix]: the token is reported expired although the claim lies in
    the far future. *)
Lemma far_future_exp_wraps :
  token.ParseToken parser_far early "h.far.s" =
    inr {| token.ExpiresAt := (- 2 ^ 63 - 1024) * time.Second;
           token.IsExpired := true;
           token.TimeUntilExp := time.minDuration;
           token.ExpiresSoon := false |}.
Proof. vm_compute; reflexivity. Qed.

(** A 401 whose body cannot be read: Get returns the read error and does
    not refresh, although a refresh token is configured; Delete, which does
    not read the body first, refreshes and retries. *)
Lemma unreadable_401_body :
  call (env_401_unreadable early) (OpGet "/me" (Some "User"))
    (start "h.t2000.s" "rt" EmptyString) =
    (Err ErrReadBody,
     {| this := this (start "h.t2000.s" "rt" EmptyString);
        sent := [getMe "h.t2000.s"] |}) /\
  call (env_401_unreadable early) (OpDelete "/me")
    (start "h.t2000.s" "rt" EmptyString) =
    (Err ErrReadRetryBody,
     {| this := NewClientWithRefresh "h.new.s" "rt2" EmptyString;
        sent := [deleteMe "h.t2000.s"; refreshRequest "rt" EmptyString;
                 deleteMe "h.new.s"] |}).
Proof. split; vm_compute; reflexivity. Qed.

End Instances.

(* ===================================================================== *)
(** ** The further properties at concrete inputs                          *)
(* ===================================================================== *)

Section MoreInstances.

Import graph spec scenario.

Lemma ParseToken_fields_consistent_witness :
  token.TimeUntilExp
    {| token.ExpiresAt := 2000 * time.Second;
       token.IsExpired := false;
       token.TimeUntilExp := 300 * time.Second;
       token.ExpiresSoon := true |} <= time.maxDuration.
Proof.
  eapply proj2.
  eapply (proj2 (proj2 (proj2 (proj2
            (ParseToken_fields_consistent parser soon "h.t2000.s" _ _))))).
  Unshelve. vm_compute. reflexivity.
Defined.

Lemma ParseToken_expiry_monotone_witness :
  exists info',
    token.ParseToken parser late "h.t2000.s" = inr info' /\
    token.ExpiresAt info' = 2000 * time.Second.
Proof.
  destruct (ParseToken_expiry_monotone parser soon late "h.t2000.s"
              {| token.ExpiresAt := 2000 * time.Second;
                 token.IsExpired := false;
                 token.TimeUntilExp := 300 * time.Second;
                 token.ExpiresSoon := true |})
    as (info' & Hp & He & _).
  - vm_compute. discriminate.
  - vm_compute. reflexivity.
  - exists info'. split; [exact Hp|exact He].
Defined.

Lemma ParseToken_float_like_int_witness :
  token.ParseToken parser soon "h.t2000.s" =
  token.ParseToken parser_int soon "h.t2000.s".
Proof.
  apply (ParseToken_float_like_int parser parser_int soon "h.t2000.s"
           {[ "exp" := Go.VFloat64 f2000 ]} {[ "exp" := Go.VInt64 2000 ]}
           f2000 2000);
    vm_compute; reflexivity.
Defined.

Lemma Client_non2xx_is_api_error_witness :
  callPlain (env_401_unreadable early) (NewClient "h.t2000.s") (OpDelete "/me") [] =
    (Err (ErrAPIStatus 401 "Una"), ([] ++ [deleteMe "h.t2000.s"])%list).
Proof.
  apply (Client_non2xx_is_api_error (env_401_unreadable early)
           (NewClient "h.t2000.s") (OpDelete "/me") (deleteMe "h.t2000.s") []
           401 None);
    try (vm_compute; reflexivity).
  left. reflexivity.
Defined.

Lemma Client_unbuildable_request_sends_nothing_witness :
  callPlain (env_up early) (NewClient "h.t2000.s")
    (OpGet ("/me" +:+ newline) (Some "User")) [] = (Err ErrCreateRequest, []).
Proof.
  apply (Client_unbuildable_request_sends_nothing (env_up early)
           (NewClient "h.t2000.s") (OpGet ("/me" +:+ newline) (Some "User")) []).
  vm_compute. reflexivity.
Defined.

Lemma Client_Delete_2xx_ignores_body_witness :
  Client_Delete (env_up early) (NewClient "h.t2000.s") "/me" [] =
    (Ok None, ([] ++ [deleteMe "h.t2000.s"])%list).
Proof.
  apply (Client_Delete_2xx_ignores_body (env_up early) (NewClient "h.t2000.s")
           "/me" (deleteMe "h.t2000.s") [] 204 (Some EmptyString));
    vm_compute; reflexivity.
Defined.

Lemma fresh_token_call_is_plain_call_witness :
  call (env_up early) (OpDelete "/me") (start "h.t2000.s" "rt" EmptyString) =
    (fst (callPlain (env_up early)
            (ClientWithRefresh.Client (this (start "h.t2000.s" "rt" EmptyString)))
            (OpDelete "/me") (sent (start "h.t2000.s" "rt" EmptyString))),
     {| this := this (start "h.t2000.s" "rt" EmptyString);
        sent := snd (callPlain (env_up early)
                       (ClientWithRefresh.Client
                          (this (start "h.t2000.s" "rt" EmptyString)))
                       (OpDelete "/me")
                       (sent (start "h.t2000.s" "rt" EmptyString))) |}).
Proof.
  eapply (fresh_token_call_is_plain_call (env_up early) (OpDelete "/me")
            (start "h.t2000.s" "rt" EmptyString)).
  - vm_compute. reflexivity.
  - reflexivity.
  - reflexivity.
  - intros req status body Hreq Hdo. vm_compute in Hreq.
    injection Hreq as <-. vm_compute in Hdo. injection Hdo as <- _. discriminate.
Defined.

Lemma stale_token_refreshed_before_request_witness :
  Authorization (getMe "h.new.s") = Some ("Bearer " +:+ "h.new.s") /\
  exists rest,
    sent (snd (call (env_up late) (OpGet "/me" (Some "User"))
                 (start "h.t2000.s" "rt" EmptyString))) =
      (sent (start "h.t2000.s" "rt" EmptyString)
         ++ refreshRequest "rt" EmptyString :: getMe "h.new.s" :: rest)%list /\
    (answered401 (OpGet "/me" (Some "User"))
       (http_Do (env_up late) [refreshRequest "rt" EmptyString] (getMe "h.new.s"))
     = false -> rest = []).
Proof.
  apply (stale_token_refreshed_before_request (env_up late)
           (OpGet "/me" (Some "User")) (start "h.t2000.s" "rt" EmptyString)
           {| AccessToken := "h.new.s"; TokenType := "Bearer";
              ExpiresIn := 3600; RefreshToken := "rt2";
              Scope := "https://graph.microsoft.com/.default" |}
           [refreshRequest "rt" EmptyString] (getMe "h.new.s"));
    vm_compute; reflexivity.
Defined.

Lemma unparsable_token_without_refresh_token_fails_offline_witness :
  call (env_down early) (OpGet "/me" (Some "User"))
    (start "garbage" EmptyString EmptyString) =
  (Err (ErrTokenCheck (ErrUnparsableNoRefresh
          (ErrParseToken (ErrJwt "token contains an invalid number of segments")))),
   start "garbage" EmptyString EmptyString).
Proof.
  apply (unparsable_token_without_refresh_token_fails_offline (env_down early));
    vm_compute; reflexivity.
Defined.

Lemma retry_decodes_when_wanted_witness :
  refreshTokenOn401 (env_401_once early) "/me" "GET" NoBody (Some "User")
    {| this := NewClientWithRefresh "h.t2000.s" "rt" EmptyString;
       sent := [getMe "h.t2000.s"] |} =
  (Ok (Some (Go.VObject [])),
   {| this := afterRefresh (NewClientWithRefresh "h.t2000.s" "rt" EmptyString)
                {| AccessToken := "h.new.s"; TokenType := "Bearer";
                   ExpiresIn := 3600; RefreshToken := "rt2";
                   Scope := "https://graph.microsoft.com/.default" |};
      sent := ([getMe "h.t2000.s"; refreshRequest "rt" EmptyString]
                 ++ [getMe "h.new.s"])%list |}).
Proof.
  apply (retry_decodes_when_wanted (env_401_once early) "/me" "GET" NoBody
           (Some "User") (NewClientWithRefresh "h.t2000.s" "rt" EmptyString)
           [getMe "h.t2000.s"]
           [getMe "h.t2000.s"; refreshRequest "rt" EmptyString]
           {| AccessToken := "h.new.s"; TokenType := "Bearer";
              ExpiresIn := 3600; RefreshToken := "rt2";
              Scope := "https://graph.microsoft.com/.default" |}
           (getMe "h.new.s") 200 "{}");
    vm_compute; reflexivity.
Defined.

End MoreInstances.
